(** * UART receive / persist / replay / erase cycle (main/main.c)

    A shallow embedding of the routines of [main.c] that make up the cycle
    controller ([sendData], [tx_task], [rx_task]) together with a model of
    the platform services they call (UART driver, NVS store, tick counter,
    heap, log), and the properties of the cycle stated in the specification.

    The C routines are written as programs over the platform calls
    ([prog]); the platform is a state transformer on a [World] that also
    records every call in a trace.  The endless loop of [rx_task] is cut
    after a given number of turns.

    What the model takes for granted: the start-up of [app_main] went well
    (UART driver installed, NVS namespace open), allocations succeed, a read
    of the store fails only for a missing record or a block that is too
    short, and [float] arithmetic is IEEE 754 binary32. *)

From Stdlib Require Import ZArith List Lia Bool.
From Stdlib Require Import Floats.SpecFloat.
From stdpp Require Import base list strings gmap.

Import ListNotations.
Local Open Scope Z_scope.

(** ** Bytes and C strings *)

Abbreviation byte := Byte.byte.
Abbreviation NUL := Byte.x00.

Definition is_nul (b : byte) : bool := Byte.eqb b NUL.

(** [strlen]: index of the first null byte.  [None] when the block holds no
    null byte: the C function would then run past the end of the block. *)
Fixpoint strlen (s : list byte) : option nat :=
  match s with
  | [] => None
  | b :: s' => if is_nul b then Some 0%nat else S <$> strlen s'
  end.

(** The bytes of the C string that starts a block. *)
Definition c_str (s : list byte) : option (list byte) :=
  (fun n => take n s) <$> strlen s.

(** A byte sequence cut at its first null byte (the whole sequence when it
    holds none). *)
Fixpoint until_nul (p : list byte) : list byte :=
  match p with
  | [] => []
  | b :: p' => if is_nul b then [] else b :: until_nul p'
  end.

(** [data[i] = v] on a block; [None] when [i] is outside the block. *)
Definition store_byte (data : list byte) (i : Z) (v : byte) : option (list byte) :=
  if (0 <=? i) && (i <? Z.of_nat (length data))
  then Some (<[Z.to_nat i := v]> data)
  else None.

(** ** C arithmetic *)

(** [TickType_t] is a 32-bit unsigned counter. *)
Definition TICK_MOD : Z := 2 ^ 32.

(** [end_time - start_time] on [TickType_t]: unsigned, wraps around. *)
Definition tick_sub (end_time start_time : Z) : Z :=
  (end_time - start_time) mod TICK_MOD.

(** C [float]: IEEE 754 binary32 (24-bit significand, exponents below 128),
    round to nearest even. *)
Abbreviation float := spec_float.
Definition float_of_int (z : Z) : float := binary_normalize 24 128 z 0 false.
Definition float_div (x y : float) : float := SFdiv 24 128 x y.
Definition float_mul (x y : float) : float := SFmul 24 128 x y.



(** ** Platform calls *)

Inductive esp_err_t : Set :=
| ESP_OK
| ESP_FAIL
| ESP_ERR_NVS_NOT_FOUND
| ESP_ERR_NVS_INVALID_LENGTH.

(** The five log lines of the firmware. *)
Inductive LogMsg : Type :=
| MsgWaiting                                   (* "WAITING FOR DATA" *)
| MsgRead (rxBytes : Z) (text : list byte)     (* "Read %d bytes: '%s'" *)
| MsgRxSpeed (speed : float)                   (* "Reception Speed: %.2f bytes/sec" *)
| MsgWrote (txBytes : Z)                       (* "Wrote %d bytes" *)
| MsgTxSpeed (speed : float).                  (* "Transmission Speed: %.2f bytes/sec" *)

(** The platform functions [main.c] calls, indexed by what they give back.
    A buffer passed by pointer for the callee to fill is passed in and
    handed back. *)
Inductive Call : Type -> Type :=
| xTaskGetTickCount : Call Z
| uart_driver_install (rx_buffer_size : Z) : Call unit
| uart_read_bytes (buf : list byte) (length : Z) (ticks_to_wait : Z) : Call (Z * list byte)
| uart_write_bytes (src : list byte) (size : Z) : Call Z
| nvs_set_str (key : string) (value : list byte) : Call esp_err_t
| nvs_get_str (key : string) (out_value : list byte) (length : Z)
    : Call (esp_err_t * list byte * Z)
| nvs_erase_all : Call esp_err_t
| nvs_commit : Call esp_err_t
| vTaskDelay (ticks : Z) : Call unit
| malloc (size : Z) : Call (list byte)
| esp_log_level_set (tag : string) : Call unit
| ESP_LOGI (tag : string) (msg : LogMsg) : Call unit.

(** Programs: a result, an undefined behaviour of the C program (an access
    outside a block), or a platform call followed by the rest. *)
Inductive prog (R : Type) : Type :=
| Ret (r : R)
| Undefined
| Vis {X : Type} (c : Call X) (k : X -> prog R).

Arguments Ret {R} r.
Arguments Undefined {R}.
Arguments Vis {R X} c k.

Fixpoint prog_bind {A B : Type} (f : A -> prog B) (p : prog A) : prog B :=
  match p with
  | Ret a => f a
  | Undefined => Undefined
  | Vis c k => Vis c (fun x => prog_bind f (k x))
  end.

#[global] Instance prog_ret : MRet prog := @Ret.
#[global] Instance prog_mbind : MBind prog := @prog_bind.

Definition call {X : Type} (c : Call X) : prog X := Vis c Ret.

(** A C operation that is undefined outside its domain. *)
Definition defined {A : Type} (o : option A) : prog A :=
  match o with
  | Some a => Ret a
  | None => Undefined
  end.

(** ** The platform

    The services below are ESP-IDF and FreeRTOS library functions; [main.c]
    only calls them.  Their model follows the contracts of the specification
    (Transport, Durable Store, Clock) and, where the specification is silent,
    the documented behaviour of the library.  Everything the firmware cannot
    control is read from the world: the tick counter readings, the bytes that
    reach the UART, what a transmit call returns, the content of fresh heap
    blocks, and which store operations fail. *)

(** What the platform saw, in order: one entry per call, with its answer. *)
Inductive Obs : Type :=
| ObsTick (t : Z)
| ObsUartRead (length ticks_to_wait : Z) (got : list byte)
| ObsUartWrite (src : list byte) (ret : Z)
| ObsNvsSet (key : string) (value : list byte) (err : esp_err_t)
| ObsNvsGet (key : string) (length : Z) (err : esp_err_t)
| ObsNvsEraseAll (err : esp_err_t)
| ObsNvsCommit (err : esp_err_t)
| ObsDelay (ticks : Z)
| ObsLog (tag : string) (msg : LogMsg).

Record World : Type := mkWorld {
  (* what the tick counter will read, call after call *)
  tick_readings : list Z;
  (* UART driver: size and content of its receive ring *)
  rx_ring_size : Z;
  rx_ring : list byte;
  (* for each coming receive call, the bytes that reach the driver after the
     previous receive call returned and before this one returns *)
  rx_arrivals : list (list byte);
  (* what the coming transmit calls return (the size asked when exhausted) *)
  tx_results : list Z;
  (* content of the blocks the coming allocations return *)
  heap_blocks : list (list byte);
  (* whether the coming store writes, erasures and commits fail *)
  set_faults : list bool;
  erase_faults : list bool;
  commit_faults : list bool;
  (* NVS namespace as seen through the open handle, and as committed *)
  nvs_ram : gmap string (list byte);
  nvs_flash : gmap string (list byte);
  trace : list Obs
}.

Definition set_tick_readings (x : list Z) (w : World) : World :=
  mkWorld x (rx_ring_size w) (rx_ring w) (rx_arrivals w) (tx_results w) (heap_blocks w)
          (set_faults w) (erase_faults w) (commit_faults w) (nvs_ram w) (nvs_flash w) (trace w).
Definition set_rx_ring_size (x : Z) (w : World) : World :=
  mkWorld (tick_readings w) x (rx_ring w) (rx_arrivals w) (tx_results w) (heap_blocks w)
          (set_faults w) (erase_faults w) (commit_faults w) (nvs_ram w) (nvs_flash w) (trace w).
Definition set_rx (ring : list byte) (arrivals : list (list byte)) (w : World) : World :=
  mkWorld (tick_readings w) (rx_ring_size w) ring arrivals (tx_results w) (heap_blocks w)
          (set_faults w) (erase_faults w) (commit_faults w) (nvs_ram w) (nvs_flash w) (trace w).
Definition set_tx_results (x : list Z) (w : World) : World :=
  mkWorld (tick_readings w) (rx_ring_size w) (rx_ring w) (rx_arrivals w) x (heap_blocks w)
          (set_faults w) (erase_faults w) (commit_faults w) (nvs_ram w) (nvs_flash w) (trace w).
Definition set_heap_blocks (x : list (list byte)) (w : World) : World :=
  mkWorld (tick_readings w) (rx_ring_size w) (rx_ring w) (rx_arrivals w) (tx_results w) x
          (set_faults w) (erase_faults w) (commit_faults w) (nvs_ram w) (nvs_flash w) (trace w).
Definition set_set_faults (x : list bool) (w : World) : World :=
  mkWorld (tick_readings w) (rx_ring_size w) (rx_ring w) (rx_arrivals w) (tx_results w) (heap_blocks w)
          x (erase_faults w) (commit_faults w) (nvs_ram w) (nvs_flash w) (trace w).
Definition set_erase_faults (x : list bool) (w : World) : World :=
  mkWorld (tick_readings w) (rx_ring_size w) (rx_ring w) (rx_arrivals w) (tx_results w) (heap_blocks w)
          (set_faults w) x (commit_faults w) (nvs_ram w) (nvs_flash w) (trace w).
Definition set_commit_faults (x : list bool) (w : World) : World :=
  mkWorld (tick_readings w) (rx_ring_size w) (rx_ring w) (rx_arrivals w) (tx_results w) (heap_blocks w)
          (set_faults w) (erase_faults w) x (nvs_ram w) (nvs_flash w) (trace w).
Definition set_nvs_ram (x : gmap string (list byte)) (w : World) : World :=
  mkWorld (tick_readings w) (rx_ring_size w) (rx_ring w) (rx_arrivals w) (tx_results w) (heap_blocks w)
          (set_faults w) (erase_faults w) (commit_faults w) x (nvs_flash w) (trace w).
Definition set_nvs_flash (x : gmap string (list byte)) (w : World) : World :=
  mkWorld (tick_readings w) (rx_ring_size w) (rx_ring w) (rx_arrivals w) (tx_results w) (heap_blocks w)
          (set_faults w) (erase_faults w) (commit_faults w) (nvs_ram w) x (trace w).

(** Append an entry to the trace. *)
Definition record (o : Obs) (w : World) : World :=
  mkWorld (tick_readings w) (rx_ring_size w) (rx_ring w) (rx_arrivals w) (tx_results w) (heap_blocks w)
          (set_faults w) (erase_faults w) (commit_faults w) (nvs_ram w) (nvs_flash w)
          (trace w ++ [o]).

(** Modelled from the spec: Clock, [now() -> monotonic_tick]
    (FreeRTOS [xTaskGetTickCount]); the reading is a [TickType_t]. *)
Definition do_xTaskGetTickCount (w : World) : Z * World :=
  let t := hd 0 (tick_readings w) mod TICK_MOD in
  (t, record (ObsTick t) (set_tick_readings (tl (tick_readings w)) w)).

(** Modelled from the spec: [uart_driver_install] gives the driver a receive
    ring of [rx_buffer_size] bytes (and, in [main.c], no transmit buffer). *)
Definition do_uart_driver_install (rx_buffer_size : Z) (w : World) : unit * World :=
  (tt, set_rx_ring_size rx_buffer_size w).

(** The bytes a receive call finds: what the ring still held plus what
    reached the driver since, as far as the ring has room. *)
Definition rx_available (w : World) : list byte :=
  take (Z.to_nat (rx_ring_size w)) (rx_ring w ++ hd [] (rx_arrivals w)).

(** Modelled from the spec: Transport,
    [receive(buffer, max_len, timeout) -> bytes_read] (ESP-IDF
    [uart_read_bytes]): takes at most [length] bytes out of the driver's
    ring into the start of [buf] and returns their number, 0 when none came
    within the wait; bytes not taken stay in the ring. *)
Definition do_uart_read_bytes (buf : list byte) (length ticks_to_wait : Z) (w : World)
  : (Z * list byte) * World :=
  let avail := rx_available w in
  let got := take (Z.to_nat length) avail in
  ((Z.of_nat (List.length got), got ++ drop (List.length got) buf),
   record (ObsUartRead length ticks_to_wait got)
          (set_rx (drop (Z.to_nat length) avail) (tl (rx_arrivals w)) w)).

(** Modelled from the spec: Transport, [transmit(buffer, len) -> bytes_written]
    (ESP-IDF [uart_write_bytes]); the count returned is the world's. *)
Definition do_uart_write_bytes (src : list byte) (size : Z) (w : World) : Z * World :=
  let ret := hd size (tx_results w) in
  (ret, record (ObsUartWrite src ret) (set_tx_results (tl (tx_results w)) w)).

(** Modelled from the spec: Durable Store, [write(key, bytes)] (ESP-IDF
    [nvs_set_str]): replaces any value under [key] in the handle's view;
    a failed write changes nothing. *)
Definition do_nvs_set_str (key : string) (value : list byte) (w : World) : esp_err_t * World :=
  let failed := hd false (set_faults w) in
  let err := if failed then ESP_FAIL else ESP_OK in
  let ram := if failed then nvs_ram w else <[key := value]> (nvs_ram w) in
  (err, record (ObsNvsSet key value err)
               (set_nvs_ram ram (set_set_faults (tl (set_faults w)) w))).

(** What a read of [key] into the block [out_value] of [length] bytes gives:
    status, block, and the length reported back. *)
Definition nvs_read (ram : gmap string (list byte)) (key : string)
    (out_value : list byte) (length : Z) : esp_err_t * list byte * Z :=
  match ram !! key with
  | None => (ESP_ERR_NVS_NOT_FOUND, out_value, length)
  | Some s =>
      let required := Z.of_nat (List.length s) + 1 in
      if length <? required
      then (ESP_ERR_NVS_INVALID_LENGTH, out_value, required)
      else (ESP_OK, s ++ NUL :: drop (S (List.length s)) out_value, required)
  end.

(** Modelled from the spec: Durable Store, [read(key, max_len) -> bytes | NotFound]
    (ESP-IDF [nvs_get_str]): copies the string and its terminator when the
    block has room for them; otherwise, and when there is no record, the
    block is left as it was. *)
Definition do_nvs_get_str (key : string) (out_value : list byte) (length : Z) (w : World)
  : (esp_err_t * list byte * Z) * World :=
  let r := nvs_read (nvs_ram w) key out_value length in
  (r, record (ObsNvsGet key length (fst (fst r))) w).

(** Modelled from the spec: Durable Store, [erase_all()] (ESP-IDF
    [nvs_erase_all]): empties the namespace in the handle's view. *)
Definition do_nvs_erase_all (w : World) : esp_err_t * World :=
  let failed := hd false (erase_faults w) in
  let err := if failed then ESP_FAIL else ESP_OK in
  let ram := if failed then nvs_ram w else ∅ in
  (err, record (ObsNvsEraseAll err)
               (set_nvs_ram ram (set_erase_faults (tl (erase_faults w)) w))).

(** Modelled from the spec: Durable Store, [commit()] (ESP-IDF [nvs_commit]):
    makes the handle's view durable; a failed commit leaves the durable
    content as it was. *)
Definition do_nvs_commit (w : World) : esp_err_t * World :=
  let failed := hd false (commit_faults w) in
  let err := if failed then ESP_FAIL else ESP_OK in
  let flash := if failed then nvs_flash w else nvs_ram w in
  (err, record (ObsNvsCommit err)
               (set_nvs_flash flash (set_commit_faults (tl (commit_faults w)) w))).

(** [vTaskDelay]: the task sleeps for the given number of ticks. *)
Definition do_vTaskDelay (ticks : Z) (w : World) : unit * World :=
  (tt, record (ObsDelay ticks) w).

(** [malloc]: a block of [size] bytes whose content is whatever the heap
    held there. *)
Definition do_malloc (size : Z) (w : World) : list byte * World :=
  (resize (Z.to_nat size) NUL (hd [] (heap_blocks w)),
   set_heap_blocks (tl (heap_blocks w)) w).

Definition do_ESP_LOGI (tag : string) (msg : LogMsg) (w : World) : unit * World :=
  (tt, record (ObsLog tag msg) w).

Definition platform {X : Type} (c : Call X) (w : World) : X * World :=
  match c in Call T return T * World with
  | xTaskGetTickCount => do_xTaskGetTickCount w
  | uart_driver_install rx_buffer_size => do_uart_driver_install rx_buffer_size w
  | uart_read_bytes buf length ticks_to_wait => do_uart_read_bytes buf length ticks_to_wait w
  | uart_write_bytes src size => do_uart_write_bytes src size w
  | nvs_set_str key value => do_nvs_set_str key value w
  | nvs_get_str key out_value length => do_nvs_get_str key out_value length w
  | nvs_erase_all => do_nvs_erase_all w
  | nvs_commit => do_nvs_commit w
  | vTaskDelay ticks => do_vTaskDelay ticks w
  | malloc size => do_malloc size w
  | esp_log_level_set _ => (tt, w)
  | ESP_LOGI tag msg => do_ESP_LOGI tag msg w
  end.

(** Running a program on the platform: its result ([None] when it ran into
    undefined behaviour) and the world it leaves. *)
Fixpoint run {R : Type} (p : prog R) (w : World) : option R * World :=
  match p with
  | Ret r => (Some r, w)
  | Undefined => (None, w)
  | Vis c k => run (k (fst (platform c w))) (snd (platform c w))
  end.

(** ** The firmware (main/main.c) *)

(** [static const int RX_BUF_SIZE = 1024;] *)
Definition RX_BUF_SIZE : Z := 1024.

(** The key of the record in the NVS namespace, and the two log tags. *)
Definition NVS_KEY : string := "uart".
Definition TX_TASK_TAG : string := "TX_TASK".
Definition RX_TASK_TAG : string := "RX_TASK".

Section Firmware.

(** FreeRTOS configuration constant (ticks per second), fixed when the
    firmware is built. *)
Variable configTICK_RATE_HZ : Z.

(** FreeRTOS: [#define portTICK_PERIOD_MS ((TickType_t) 1000 / configTICK_RATE_HZ)]. *)
Definition portTICK_PERIOD_MS : Z := 1000 / configTICK_RATE_HZ.

(** [void uart_init(void)]: the driver gets a receive ring of twice the
    buffer size and no transmit buffer (line speed and pins are outside the
    model). *)
Definition uart_init : prog unit :=
  call (uart_driver_install (RX_BUF_SIZE * 2)).

(** [void sendData(const char* logName, const char* data)] *)
Definition sendData (logName : string) (data : list byte) : prog unit :=
  n ← defined (strlen data);
  let len := Z.of_nat n in
  start_time ← call xTaskGetTickCount;
  txBytes ← call (uart_write_bytes (take n data) len);
  end_time ← call xTaskGetTickCount;
  call (ESP_LOGI logName (MsgWrote txBytes));;
  let time_taken := float_of_int (tick_sub end_time start_time) in
  let speed :=
    float_mul (float_div (float_of_int txBytes) time_taken)
              (float_of_int configTICK_RATE_HZ) in
  call (ESP_LOGI logName (MsgTxSpeed speed));;
  call nvs_erase_all;;
  call nvs_commit;;
  mret tt.

(** [void tx_task(void)] *)
Definition tx_task : prog unit :=
  call (esp_log_level_set TX_TASK_TAG);;
  data ← call (malloc RX_BUF_SIZE);
  let data_size := RX_BUF_SIZE in
  '(_, data, data_size) ← call (nvs_get_str NVS_KEY data data_size);
  sendData TX_TASK_TAG data;;
  call (vTaskDelay (2000 / portTICK_PERIOD_MS));;
  mret tt.

(** One turn of the [while (1)] loop of [rx_task]; [data] is the receive
    block, allocated once before the loop and reused by every turn. *)
Definition rx_task_body (data : list byte) : prog (list byte) :=
  call (ESP_LOGI RX_TASK_TAG MsgWaiting);;
  start_time ← call xTaskGetTickCount;
  '(rxBytes, data) ← call (uart_read_bytes data RX_BUF_SIZE (1000 / portTICK_PERIOD_MS));
  end_time ← call xTaskGetTickCount;
  data ←
    (if 0 <? rxBytes then
       data ← defined (store_byte data rxBytes NUL);
       text ← defined (c_str data);
       call (nvs_set_str NVS_KEY text);;
       call nvs_commit;;
       call (ESP_LOGI RX_TASK_TAG (MsgRead rxBytes text));;
       let time_taken := float_of_int (tick_sub end_time start_time) in
       let speed :=
         float_mul (float_div (float_of_int rxBytes) time_taken)
                   (float_of_int configTICK_RATE_HZ) in
       call (ESP_LOGI RX_TASK_TAG (MsgRxSpeed speed));;
       tx_task;;
       mret data
     else mret data);
  call (vTaskDelay (3000 / portTICK_PERIOD_MS));;
  mret data.

(** The first [n] turns of the loop. *)
Fixpoint rx_task_loop (n : nat) (data : list byte) : prog (list byte) :=
  match n with
  | O => mret data
  | S n' => data ← rx_task_body data; rx_task_loop n' data
  end.

(** [static void rx_task(void *arg)], cut after [n] turns of its endless
    loop. *)
Definition rx_task (n : nat) : prog (list byte) :=
  call (esp_log_level_set RX_TASK_TAG);;
  data ← call (malloc (RX_BUF_SIZE + 1));
  rx_task_loop n data.


(** ** Reading a run *)

(** The calls a program makes when run from a world, with their answers. *)
Definition events {R : Type} (p : prog R) (w : World) : list Obs :=
  drop (length (trace w)) (trace (snd (run p w))).

(** The byte sequences handed to the transmit call, in order. *)
Fixpoint transmitted (tr : list Obs) : list (list byte) :=
  match tr with
  | [] => []
  | ObsUartWrite src _ :: tr' => src :: transmitted tr'
  | _ :: tr' => transmitted tr'
  end.

(** The byte sequences the receive calls delivered, in order. *)
Fixpoint received (tr : list Obs) : list (list byte) :=
  match tr with
  | [] => []
  | ObsUartRead _ _ got :: tr' => got :: received tr'
  | _ :: tr' => received tr'
  end.

(** The values handed to the store write, in order. *)
Fixpoint written (tr : list Obs) : list (list byte) :=
  match tr with
  | [] => []
  | ObsNvsSet _ value _ :: tr' => value :: written tr'
  | _ :: tr' => written tr'
  end.


(** Total number of ticks slept. *)
Fixpoint delay_ticks (tr : list Obs) : Z :=
  match tr with
  | [] => 0
  | ObsDelay t :: tr' => t + delay_ticks tr'
  | _ :: tr' => delay_ticks tr'
  end.

(** Store writes, erasures, commits and transmissions. *)
Definition mutates (o : Obs) : bool :=
  match o with
  | ObsUartWrite _ _ | ObsNvsSet _ _ _ | ObsNvsEraseAll _ | ObsNvsCommit _ => true
  | _ => false
  end.

(** The [i]-th coming reading of the tick counter. *)
Definition tick_at (i : nat) (w : World) : Z := nth i (tick_readings w) 0 mod TICK_MOD.

(** Status of a store operation from its fault flag. *)
Definition status (failed : bool) : esp_err_t := if failed then ESP_FAIL else ESP_OK.

(** The speed the firmware logs for [count] bytes moved between two tick
    readings. *)
Definition logged_speed (count start_time end_time : Z) : float :=
  float_mul (float_div (float_of_int count) (float_of_int (tick_sub end_time start_time)))
            (float_of_int configTICK_RATE_HZ).

(** What the coming transmit call returns when asked to send [text]. *)
Definition tx_result (w : World) (text : list byte) : Z :=
  hd (Z.of_nat (length text)) (tx_results w).

(** The calls of [sendData] on a block whose C string is [text]. *)
Definition send_events (w : World) (logName : string) (text : list byte) : list Obs :=
  [ ObsTick (tick_at 0 w);
    ObsUartWrite text (tx_result w text);
    ObsTick (tick_at 1 w);
    ObsLog logName (MsgWrote (tx_result w text));
    ObsLog logName
      (MsgTxSpeed (logged_speed (tx_result w text) (tick_at 0 w) (tick_at 1 w)));
    ObsNvsEraseAll (status (hd false (erase_faults w)));
    ObsNvsCommit (status (hd false (commit_faults w))) ].

(** The calls of a turn that received [p], up to the start of the replay. *)
Definition persist_events (w : World) (p : list byte) : list Obs :=
  [ ObsLog RX_TASK_TAG MsgWaiting;
    ObsTick (tick_at 0 w);
    ObsUartRead RX_BUF_SIZE (1000 / portTICK_PERIOD_MS) p;
    ObsTick (tick_at 1 w);
    ObsNvsSet NVS_KEY (until_nul p) (status (hd false (set_faults w)));
    ObsNvsCommit (status (hd false (commit_faults w)));
    ObsLog RX_TASK_TAG (MsgRead (Z.of_nat (length p)) (until_nul p));
    ObsLog RX_TASK_TAG
      (MsgRxSpeed (logged_speed (Z.of_nat (length p)) (tick_at 0 w) (tick_at 1 w))) ].

(** The world in which the replay of a turn that received [p] starts. *)
Definition before_replay (w : World) (p : list byte) : World :=
  let ram :=
    if hd false (set_faults w) then nvs_ram w
    else <[NVS_KEY := until_nul p]> (nvs_ram w) in
  mkWorld (tail (tail (tick_readings w)))
          (rx_ring_size w)
          (drop (Z.to_nat RX_BUF_SIZE) (rx_available w))
          (tail (rx_arrivals w))
          (tx_results w)
          (heap_blocks w)
          (tail (set_faults w))
          (erase_faults w)
          (tail (commit_faults w))
          ram
          (if hd false (commit_faults w) then nvs_flash w else ram)
          (trace w ++ persist_events w p).

(** The calls of a full cycle on the payload [p], from world [w]. *)
Definition cycle_events (w : World) (p : list byte) : list Obs :=
  [ ObsLog RX_TASK_TAG MsgWaiting;
    ObsTick (tick_at 0 w);
    ObsUartRead RX_BUF_SIZE (1000 / portTICK_PERIOD_MS) p;
    ObsTick (tick_at 1 w);
    ObsNvsSet NVS_KEY (until_nul p) ESP_OK;
    ObsNvsCommit (status (nth 0 (commit_faults w) false));
    ObsLog RX_TASK_TAG (MsgRead (Z.of_nat (length p)) (until_nul p));
    ObsLog RX_TASK_TAG
      (MsgRxSpeed (logged_speed (Z.of_nat (length p)) (tick_at 0 w) (tick_at 1 w)));
    ObsNvsGet NVS_KEY RX_BUF_SIZE ESP_OK;
    ObsTick (tick_at 2 w);
    ObsUartWrite (until_nul p) (tx_result w (until_nul p));
    ObsTick (tick_at 3 w);
    ObsLog TX_TASK_TAG (MsgWrote (tx_result w (until_nul p)));
    ObsLog TX_TASK_TAG
      (MsgTxSpeed (logged_speed (tx_result w (until_nul p)) (tick_at 2 w) (tick_at 3 w)));
    ObsNvsEraseAll (status (hd false (erase_faults w)));
    ObsNvsCommit (status (nth 1 (commit_faults w) false));
    ObsDelay (2000 / portTICK_PERIOD_MS);
    ObsDelay (3000 / portTICK_PERIOD_MS) ].

(** The block [tx_task] allocates for the replay, as the heap hands it out. *)
Definition replay_block (w : World) : list byte :=
  resize (Z.to_nat RX_BUF_SIZE) NUL (hd [] (heap_blocks w)).

(** What the store read of [tx_task] gives from world [w]: status, the
    replay buffer after the read, and the length reported ([data_size]). *)
Definition replay_read (w : World) : esp_err_t * list byte * Z :=
  nvs_read (nvs_ram w) NVS_KEY (replay_block w) RX_BUF_SIZE.

Definition replay_status (w : World) : esp_err_t := fst (fst (replay_read w)).
Definition replay_buffer (w : World) : list byte := snd (fst (replay_read w)).
Definition replay_data_size (w : World) : Z := snd (replay_read w).


(** How a turn that received data ends, given the outcome of its replay. *)
Definition finish_turn (data : list byte) (r : option unit * World) : option (list byte) * World :=
  match fst r with
  | Some _ => (Some data, record (ObsDelay (3000 / portTICK_PERIOD_MS)) (snd r))
  | None => (None, snd r)
  end.

(** ** Example worlds *)

(** The device after [uart_init], with nothing else going on. *)
Definition booted : World :=
  snd (run uart_init (mkWorld [] 0 [] [] [] [] [] [] [] ∅ ∅ [])).

(** The receive block of [rx_task], holding junk. *)
Definition junk_block : list byte := repeat Byte.xff (Z.to_nat (RX_BUF_SIZE + 1)).

Definition hello : list byte := String.list_byte_of_string "hello world!".
Definition hi : list byte := String.list_byte_of_string "hi".
Definition AB : list byte := String.list_byte_of_string "AB".

(** Scenario A: ["hello world!\0"] arrives; two ticks go by during the
    receive call and three during the transmit call. *)
Definition w_hello : World :=
  set_rx [] [hello ++ [NUL]] (set_tick_readings [10; 12; 20; 23] booted).


(** The same, with a transmit call that takes 5 of the 12 bytes. *)
Definition w_short_write : World := set_tx_results [5] w_hello.

(** Scenario B: nothing arrives. *)
Definition w_quiet : World := set_tick_readings [10; 110] booted.

(** ["hi"] arrives and the commit after the store write fails. *)
Definition w_commit_fails : World :=
  set_commit_faults [true] (set_rx [] [hi] booted).

(** ["hi"] arrives, the store write fails, the store holds no record, and the
    heap block handed to [tx_task] holds ["AB\0..."]. *)
Definition w_write_fails : World :=
  set_set_faults [true] (set_heap_blocks [AB] (set_rx [] [hi] booted)).

(** First run: no record was ever persisted; the heap block handed to
    [tx_task] holds ["AB\0..."]. *)
Definition w_first_run : World := set_heap_blocks [AB] booted.

(** The store holds the record ["hello world!"], committed. *)
Definition w_stored : World :=
  set_nvs_flash {[ NVS_KEY := hello ]} (set_nvs_ram {[ NVS_KEY := hello ]} booted).

(** Scenario D: 2000 bytes are on offer. *)
Definition w_2000 : World := set_rx [] [repeat Byte.x61 2000] booted.

(** ["hi"] arrives and the store write fails while the store still holds
    the record ["hello world!"]. *)
Definition w_stale : World :=
  set_set_faults [true] (set_rx [] [hi] w_stored).


(** ["hi"] arrives, the store write fails on an empty store, and the heap
    block handed to [tx_task] holds no null byte. *)
Definition w_no_nul : World :=
  set_set_faults [true]
    (set_heap_blocks [repeat Byte.xff (Z.to_nat RX_BUF_SIZE)] (set_rx [] [hi] booted)).

(** Two payloads arrive, one per receive call. *)
Definition w_two : World := set_rx [] [hello ++ [NUL]; hi] booted.

(** The tick counter wraps during both measurements of scenario A. *)
Definition w_wrap : World :=
  set_rx [] [hello ++ [NUL]]
    (set_tick_readings [4294967294; 3; 4294967295; 1] booted).

(** The store holds the record ["AB"] and the heap block handed to [tx_task]
    is zeroed. *)
Definition w_AB_stored : World := set_nvs_ram {[ NVS_KEY := AB ]} booted.

(** The part of the world the replay has no business with: the receive side
    of the UART driver and the faults of the coming store writes. *)
Definition rx_side (w : World) : Z * list byte * list (list byte) * list bool :=
  (rx_ring_size w, rx_ring w, rx_arrivals w, set_faults w).

(** ** Properties *)

(** *** Running programs *)

Lemma run_bind {A B : Type} (p : prog A) (f : A -> prog B) (w : World) :
  run (p ≫= f) w =
  match fst (run p w) with
  | Some a => run (f a) (snd (run p w))
  | None => (None, snd (run p w))
  end.
Proof.
  revert w. induction p as [a| |X c k IH]; intros w; cbn; try reflexivity.
  apply IH.
Qed.

Lemma run_call_bind {X R : Type} (c : Call X) (k : X -> prog R) (w : World) :
  run (call c ≫= k) w = run (k (fst (platform c w))) (snd (platform c w)).
Proof. reflexivity. Qed.

Lemma run_defined_bind {A R : Type} (a : A) (k : A -> prog R) (w : World) :
  run (defined (Some a) ≫= k) w = run (k a) w.
Proof. reflexivity. Qed.

Lemma run_undefined_bind {A R : Type} (k : A -> prog R) (w : World) :
  run (defined None ≫= k) w = (None, w).
Proof. reflexivity. Qed.

(** One platform call of the program under [run]. *)
Ltac run_call :=
  rewrite run_call_bind;
  cbn [platform do_xTaskGetTickCount do_uart_driver_install do_uart_read_bytes
       do_uart_write_bytes do_nvs_set_str do_nvs_get_str do_nvs_erase_all
       do_nvs_commit do_vTaskDelay do_malloc do_ESP_LOGI fst snd].

(** The program under [run] has come to its result. *)
Ltac run_ret := cbn [run mret prog_ret].

(** Read a field of a world built with the setters. *)
Ltac world_fields :=
  cbn [trace nvs_ram nvs_flash rx_ring rx_ring_size rx_arrivals tx_results
       heap_blocks tick_readings set_faults erase_faults commit_faults
       record set_tick_readings set_rx_ring_size set_rx set_tx_results
       set_heap_blocks set_set_faults set_erase_faults set_commit_faults
       set_nvs_ram set_nvs_flash].

Lemma World_eq (w1 w2 : World) :
  tick_readings w1 = tick_readings w2 ->
  rx_ring_size w1 = rx_ring_size w2 ->
  rx_ring w1 = rx_ring w2 ->
  rx_arrivals w1 = rx_arrivals w2 ->
  tx_results w1 = tx_results w2 ->
  heap_blocks w1 = heap_blocks w2 ->
  set_faults w1 = set_faults w2 ->
  erase_faults w1 = erase_faults w2 ->
  commit_faults w1 = commit_faults w2 ->
  nvs_ram w1 = nvs_ram w2 ->
  nvs_flash w1 = nvs_flash w2 ->
  trace w1 = trace w2 ->
  w1 = w2.
Proof. destruct w1, w2. cbn. by intros -> -> -> -> -> -> -> -> -> -> -> ->. Qed.

Ltac flatten_trace := rewrite <- ?app_assoc; cbn [app].

Lemma events_app {R : Type} (p : prog R) (w : World) (l : list Obs) :
  trace (snd (run p w)) = trace w ++ l -> events p w = l.
Proof. unfold events. intros ->. by rewrite drop_app_length. Qed.

Lemma hd_nth {A : Type} (d : A) (l : list A) : hd d l = nth 0 l d.
Proof. by destruct l. Qed.

Lemma nth_tail {A : Type} (d : A) (l : list A) (i : nat) :
  nth i (tail l) d = nth (S i) l d.
Proof. destruct l; [by destruct i | reflexivity]. Qed.

Lemma rx_available_record (o : Obs) (w : World) :
  rx_available (record o w) = rx_available w.
Proof. reflexivity. Qed.

Lemma rx_available_set_tick_readings (x : list Z) (w : World) :
  rx_available (set_tick_readings x w) = rx_available w.
Proof. reflexivity. Qed.

Create Rewrite HintDb world.
#[local] Hint Rewrite rx_available_record rx_available_set_tick_readings : world.

(** *** C strings *)

Lemma strlen_app_nul (p rest : list byte) :
  strlen (p ++ NUL :: rest) = Some (length (until_nul p)).
Proof.
  induction p as [|b p IH]; cbn; [reflexivity|].
  destruct (is_nul b); [reflexivity|]. by rewrite IH.
Qed.

Lemma take_until_nul (p rest : list byte) :
  take (length (until_nul p)) (p ++ rest) = until_nul p.
Proof.
  induction p as [|b p IH]; cbn; [by rewrite take_0|].
  destruct (is_nul b); cbn; [reflexivity|]. by rewrite IH.
Qed.

Lemma c_str_app_nul (p rest : list byte) :
  c_str (p ++ NUL :: rest) = Some (until_nul p).
Proof. unfold c_str. rewrite strlen_app_nul. cbn. by rewrite take_until_nul. Qed.

Lemma until_nul_idemp (p : list byte) : until_nul (until_nul p) = until_nul p.
Proof.
  induction p as [|b p IH]; cbn; [reflexivity|].
  destruct (is_nul b) eqn:E; cbn; [reflexivity|]. by rewrite E, IH.
Qed.

Lemma until_nul_length (p : list byte) : (length (until_nul p) <= length p)%nat.
Proof.
  induction p as [|b p IH]; cbn; [lia|]. destruct (is_nul b); cbn; lia.
Qed.

Lemma until_nul_no_nul (p : list byte) : NUL ∉ p -> until_nul p = p.
Proof.
  induction p as [|b p IH]; cbn; [reflexivity|]. intros Hn.
  destruct (is_nul b) eqn:E.
  - exfalso. apply Hn. unfold is_nul in E. apply Byte.byte_dec_bl in E.
    subst b. left.
  - f_equal. apply IH. intros Hin. apply Hn. by right.
Qed.

Lemma not_nul_is_nul (b : byte) : b <> NUL -> is_nul b = false.
Proof.
  intros Hb. unfold is_nul. destruct (Byte.eqb b NUL) eqn:E; [|reflexivity].
  apply Byte.byte_dec_bl in E. contradiction.
Qed.

(** The [strlen] of a block is the number of bytes before its first null
    byte. *)
Lemma strlen_first_nul (t rest : list byte) :
  Forall (fun b : byte => b <> NUL) t ->
  strlen (t ++ NUL :: rest) = Some (length t).
Proof.
  induction 1 as [|b t Hb _ IH]; cbn; [reflexivity|].
  by rewrite (not_nul_is_nul b Hb), IH.
Qed.

Lemma strlen_elem_of (l : list byte) : NUL ∈ l -> is_Some (strlen l).
Proof.
  induction l as [|b l IH]; intros Hin; [by apply elem_of_nil in Hin|].
  cbn. destruct (is_nul b) eqn:E; [by eexists|].
  apply elem_of_cons in Hin as [<- | Hin]; [discriminate E|].
  destruct (IH Hin) as [n ->]. by eexists.
Qed.

Lemma strlen_lt (s : list byte) (n : nat) :
  strlen s = Some n -> (n < length s)%nat.
Proof.
  revert n. induction s as [|b s IH]; intros n; cbn; [discriminate|].
  destruct (is_nul b).
  - intros [= <-]. lia.
  - destruct (strlen s) as [m|]; cbn; [|discriminate].
    intros [= <-]. specialize (IH m eq_refl). lia.
Qed.

Lemma strlen_stored (s rest : list byte) :
  strlen (until_nul s ++ NUL :: rest) = Some (length (until_nul s)).
Proof. by rewrite strlen_app_nul, until_nul_idemp. Qed.

(** The block after [uart_read_bytes] has put [p] at its start and
    [data[rxBytes] = 0] has been done. *)
Lemma store_byte_after_read (p data : list byte) :
  (length p < length data)%nat ->
  store_byte (p ++ drop (length p) data) (Z.of_nat (length p)) NUL =
  Some (p ++ NUL :: drop (S (length p)) data).
Proof.
  intros Hlt. unfold store_byte.
  rewrite length_app, length_drop.
  replace ((0 <=? Z.of_nat (length p)) &&
           (Z.of_nat (length p) <? Z.of_nat (length p + (length data - length p))))
    with true by (symmetry; apply andb_true_iff; split; [apply Z.leb_le | apply Z.ltb_lt]; lia).
  rewrite Nat2Z.id. f_equal.
  replace (length p) with (length p + 0)%nat at 1 by lia.
  rewrite insert_app_r. f_equal.
  destruct (drop (length p) data) as [|b l] eqn:E.
  - apply (f_equal length) in E. rewrite length_drop in E. cbn in E. lia.
  - cbn. f_equal.
    replace (S (length p)) with (length p + 1)%nat by lia.
    by rewrite <- drop_drop, E.
Qed.

(** *** The store *)

Lemma nvs_read_found (ram : gmap string (list byte)) (key : string)
    (s out_value : list byte) (len : Z) :
  ram !! key = Some s ->
  Z.of_nat (length s) < len ->
  nvs_read ram key out_value len =
  (ESP_OK, s ++ NUL :: drop (S (length s)) out_value, Z.of_nat (length s) + 1).
Proof.
  intros Hk Hlen. unfold nvs_read. rewrite Hk.
  destruct (Z.ltb_spec len (Z.of_nat (length s) + 1)); [lia | reflexivity].
Qed.

Lemma nvs_read_not_found (ram : gmap string (list byte)) (key : string)
    (out_value : list byte) (len : Z) :
  ram !! key = None ->
  nvs_read ram key out_value len = (ESP_ERR_NVS_NOT_FOUND, out_value, len).
Proof. intros Hk. unfold nvs_read. by rewrite Hk. Qed.

(** *** The speed formula *)





(** *** Transmission: [sendData] *)

Lemma sendData_run (w : World) (logName : string) (data : list byte) (n : nat) :
  strlen data = Some n ->
  exists w',
    run (sendData logName data) w = (Some tt, w') /\
    trace w' = trace w ++ send_events w logName (take n data) /\
    nvs_ram w' = (if hd false (erase_faults w) then nvs_ram w else ∅) /\
    nvs_flash w' =
      (if hd false (commit_faults w) then nvs_flash w
       else if hd false (erase_faults w) then nvs_ram w else ∅) /\
    rx_ring w' = rx_ring w.
Proof.
  intros Hn. unfold sendData. rewrite Hn, run_defined_bind.
  do 7 run_call. run_ret.
  eexists. split; [reflexivity|]. world_fields. flatten_trace.
  split_and!; [|reflexivity..].
  unfold send_events, logged_speed, tx_result, tick_at, status.
  rewrite !hd_nth, !nth_tail. f_equal.
  rewrite length_take_le; [reflexivity|].
  apply strlen_lt in Hn. lia.
Qed.

Lemma sendData_undefined (w : World) (logName : string) (data : list byte) :
  strlen data = None -> run (sendData logName data) w = (None, w).
Proof. intros Hn. unfold sendData. by rewrite Hn, run_undefined_bind. Qed.

(** *** Replay: [tx_task] *)

Lemma tx_task_run (w : World) (n : nat) :
  strlen (replay_buffer w) = Some n ->
  exists w',
    run tx_task w = (Some tt, w') /\
    trace w' = trace w ++
      ObsNvsGet NVS_KEY RX_BUF_SIZE (replay_status w)
      :: send_events w TX_TASK_TAG (take n (replay_buffer w))
      ++ [ObsDelay (2000 / portTICK_PERIOD_MS)] /\
    nvs_ram w' = (if hd false (erase_faults w) then nvs_ram w else ∅) /\
    nvs_flash w' =
      (if hd false (commit_faults w) then nvs_flash w
       else if hd false (erase_faults w) then nvs_ram w else ∅) /\
    rx_ring w' = rx_ring w.
Proof.
  unfold replay_buffer, replay_status, replay_read, replay_block. intros Hn.
  unfold tx_task. do 3 run_call. world_fields.
  destruct (nvs_read (nvs_ram w) NVS_KEY _ RX_BUF_SIZE) as [[e d] sz].
  cbn [fst snd] in *. rewrite run_bind.
  edestruct (sendData_run
    (record (ObsNvsGet NVS_KEY RX_BUF_SIZE e) (set_heap_blocks (tail (heap_blocks w)) w))
    TX_TASK_TAG d n Hn) as (w1 & Hrun & Htr & Hram & Hfl & Hring).
  rewrite Hrun. cbn [fst snd]. run_call. run_ret.
  eexists. split; [reflexivity|].
  world_fields. rewrite Htr, Hram, Hfl, Hring. world_fields. flatten_trace.
  split_and!; [|reflexivity..].
  f_equal.
Qed.

Lemma tx_task_undefined (w : World) :
  strlen (replay_buffer w) = None ->
  exists w',
    run tx_task w = (None, w') /\
    trace w' = trace w ++ [ObsNvsGet NVS_KEY RX_BUF_SIZE (replay_status w)] /\
    rx_ring w' = rx_ring w.
Proof.
  unfold replay_buffer, replay_status, replay_read, replay_block. intros Hn.
  unfold tx_task. do 3 run_call. world_fields.
  destruct (nvs_read (nvs_ram w) NVS_KEY _ RX_BUF_SIZE) as [[e d] sz].
  cbn [fst snd] in *. rewrite run_bind, sendData_undefined by exact Hn.
  cbn [fst snd]. eexists. split_and!; reflexivity.
Qed.

(** Whatever the replay does, it leaves the receive ring alone and only
    adds to the trace, and what it adds holds no receive and no store
    write. *)
Lemma tx_task_frame (w : World) :
  rx_ring (snd (run tx_task w)) = rx_ring w /\
  exists l, trace (snd (run tx_task w)) = trace w ++ l /\
            received l = [] /\ written l = [].
Proof.
  destruct (strlen (replay_buffer w)) as [n|] eqn:E.
  - destruct (tx_task_run w n E) as (w' & -> & Htr & _ & _ & Hring).
    cbn [snd]. split; [exact Hring|]. eexists. split; [exact Htr|].
    split; reflexivity.
  - destruct (tx_task_undefined w E) as (w' & -> & Htr & Hring).
    cbn [snd]. split; [exact Hring|]. eexists. split; [exact Htr|].
    split; reflexivity.
Qed.

(** With no record under the key, the replay transmits what the fresh heap
    block happened to hold. *)
Lemma tx_task_not_found (w : World) (n : nat) :
  nvs_ram w !! NVS_KEY = None ->
  strlen (replay_block w) = Some n ->
  replay_status w = ESP_ERR_NVS_NOT_FOUND /\
  transmitted (events tx_task w) = [take n (replay_block w)].
Proof.
  intros Hk Hn.
  assert (Hread : replay_read w = (ESP_ERR_NVS_NOT_FOUND, replay_block w, RX_BUF_SIZE))
    by (unfold replay_read; by apply nvs_read_not_found).
  assert (Hbuf : replay_buffer w = replay_block w)
    by (unfold replay_buffer; by rewrite Hread).
  split; [unfold replay_status; by rewrite Hread|].
  rewrite <- Hbuf in Hn. destruct (tx_task_run w n Hn) as (w' & Hrun & Htr & _).
  rewrite (events_app _ _ _ ltac:(rewrite Hrun; exact Htr)), Hbuf. reflexivity.
Qed.

Lemma tx_task_transmitted (w : World) :
  transmitted (events tx_task w) =
  match strlen (replay_buffer w) with
  | Some n => [take n (replay_buffer w)]
  | None => []
  end.
Proof.
  destruct (strlen (replay_buffer w)) as [n|] eqn:Hn.
  - destruct (tx_task_run w n Hn) as (w' & Hrun & Htr & _).
    rewrite (events_app _ _ _ ltac:(rewrite Hrun; exact Htr)). reflexivity.
  - destruct (tx_task_undefined w Hn) as (w' & Hrun & Htr & _).
    rewrite (events_app _ _ _ ltac:(rewrite Hrun; exact Htr)). reflexivity.
Qed.

(** *** The receive turn: [rx_task] *)

Lemma rx_turn_idle (w : World) (data : list byte) :
  rx_available w = [] ->
  run (rx_task_body data) w =
    (Some data,
     record (ObsDelay (3000 / portTICK_PERIOD_MS))
       (record (ObsTick (tick_at 1 w))
          (set_tick_readings (tail (tail (tick_readings w)))
             (record (ObsUartRead RX_BUF_SIZE (1000 / portTICK_PERIOD_MS) [])
                (set_rx [] (tail (rx_arrivals w))
                   (record (ObsTick (tick_at 0 w))
                      (set_tick_readings (tail (tick_readings w))
                         (record (ObsLog RX_TASK_TAG MsgWaiting) w)))))))).
Proof.
  intros Hav. unfold rx_task_body. do 3 run_call.
  autorewrite with world. rewrite Hav, take_nil, drop_nil.
  run_call.
  match goal with |- context [0 <? ?z] => replace (0 <? z) with false by reflexivity end.
  rewrite run_bind. run_ret. cbn [fst snd]. run_call. run_ret.
  world_fields. unfold tick_at. by rewrite !hd_nth, !nth_tail.
Qed.

Lemma rx_turn_persist (w : World) (data p : list byte) :
  take (Z.to_nat RX_BUF_SIZE) (rx_available w) = p ->
  (0 < length p)%nat ->
  (length p < length data)%nat ->
  run (rx_task_body data) w =
  finish_turn (p ++ NUL :: drop (S (length p)) data) (run tx_task (before_replay w p)).
Proof.
  intros Hav Hpos Hdata.
  unfold rx_task_body. do 3 run_call.
  autorewrite with world. rewrite Hav.
  run_call.
  replace (0 <? Z.of_nat (length p)) with true by (symmetry; apply Z.ltb_lt; lia).
  rewrite run_bind.
  rewrite store_byte_after_read by exact Hdata. rewrite run_defined_bind.
  rewrite c_str_app_nul, run_defined_bind.
  do 4 run_call. world_fields.
  rewrite (run_bind tx_task).
  match goal with |- context [run tx_task ?w5] =>
    replace w5 with (before_replay w p)
  end.
  - unfold finish_turn.
    destruct (run tx_task (before_replay w p)) as [[[]|] w6]; cbn [fst snd].
    + run_ret. cbn [fst snd]. run_call. by run_ret.
    + reflexivity.
  - unfold before_replay, persist_events, logged_speed, tick_at, status.
    apply World_eq; world_fields; flatten_trace; rewrite ?hd_nth, ?nth_tail;
      reflexivity.
Qed.

Lemma received_app (l1 l2 : list Obs) : received (l1 ++ l2) = received l1 ++ received l2.
Proof.
  induction l1 as [|o l1 IH]; [reflexivity|]. destruct o; cbn; by rewrite ?IH.
Qed.

Lemma written_app (l1 l2 : list Obs) : written (l1 ++ l2) = written l1 ++ written l2.
Proof.
  induction l1 as [|o l1 IH]; [reflexivity|]. destruct o; cbn; by rewrite ?IH.
Qed.

(** A turn that received [p] starts with the calls of [persist_events]; what
    follows holds no receive and no store write, and the ring keeps what the
    receive call did not take. *)
Lemma rx_turn_prefix (w : World) (data p : list byte) :
  take (Z.to_nat RX_BUF_SIZE) (rx_available w) = p ->
  (0 < length p)%nat ->
  (length p < length data)%nat ->
  rx_ring (snd (run (rx_task_body data) w)) =
    drop (Z.to_nat RX_BUF_SIZE) (rx_available w) /\
  exists rest,
    events (rx_task_body data) w = persist_events w p ++ rest /\
    received rest = [] /\ written rest = [].
Proof.
  intros Hav Hpos Hdata.
  pose proof (rx_turn_persist w data p Hav Hpos Hdata) as Hrun.
  destruct (tx_task_frame (before_replay w p)) as (Hring & l & Htr & Hrec & Hwr).
  unfold finish_turn in Hrun.
  destruct (run tx_task (before_replay w p)) as [[[]|] w6];
    cbn [fst snd] in *; unfold before_replay in Hring, Htr;
    cbn [rx_ring trace] in Hring, Htr; rewrite Hrun; cbn [snd]; world_fields.
  - split; [exact Hring|]. exists (l ++ [ObsDelay (3000 / portTICK_PERIOD_MS)]).
    split; [|by rewrite received_app, written_app, Hrec, Hwr].
    apply events_app. rewrite Hrun. cbn [snd]. world_fields.
    rewrite Htr. by rewrite <- !app_assoc.
  - split; [exact Hring|]. exists l. split; [|by split].
    apply events_app. rewrite Hrun. cbn [snd]. rewrite Htr.
    by rewrite <- !app_assoc.
Qed.

(** The block of [rx_task] has [RX_BUF_SIZE + 1] bytes, and a turn that ends
    hands on a block of the same length. *)
Lemma rx_task_block (n : nat) (w : World) :
  run (rx_task n) w =
  run (rx_task_loop n (resize (Z.to_nat (RX_BUF_SIZE + 1)) NUL (hd [] (heap_blocks w))))
      (set_heap_blocks (tail (heap_blocks w)) w).
Proof. unfold rx_task. do 2 run_call. reflexivity. Qed.

Lemma rx_turn_keeps_block (w : World) (data data' : list byte) :
  length data = Z.to_nat (RX_BUF_SIZE + 1) ->
  fst (run (rx_task_body data) w) = Some data' ->
  length data' = length data.
Proof.
  intros Hdata.
  destruct (take (Z.to_nat RX_BUF_SIZE) (rx_available w)) as [|b p'] eqn:Hav.
  - assert (rx_available w = []) as Hnil.
    { destruct (rx_available w); [reflexivity|].
      change (Z.to_nat RX_BUF_SIZE) with (S 1023) in Hav. discriminate Hav. }
    rewrite (rx_turn_idle w data Hnil). by intros [= <-].
  - assert (length (b :: p') <= Z.to_nat RX_BUF_SIZE)%nat as Hle
      by (rewrite <- Hav, length_take; lia).
    assert (length (b :: p') < length data)%nat as Hlt
      by (rewrite Hdata; unfold RX_BUF_SIZE in *; lia).
    rewrite (rx_turn_persist w data (b :: p') Hav ltac:(cbn; lia) Hlt).
    unfold finish_turn. destruct (fst (run tx_task _)); cbn [fst]; [|discriminate].
    intros [= <-]. cbn [app length] in *. rewrite length_app. cbn [length].
    rewrite length_drop. lia.
Qed.

(** *** The full cycle *)

Lemma cycle_run (w : World) (data p : list byte) :
  rx_available w = p ->
  (0 < length p < Z.to_nat RX_BUF_SIZE)%nat ->
  (length p < length data)%nat ->
  hd false (set_faults w) = false ->
  exists w',
    run (rx_task_body data) w = (Some (p ++ NUL :: drop (S (length p)) data), w') /\
    trace w' = trace w ++ cycle_events w p /\
    nvs_ram w' =
      (if hd false (erase_faults w) then <[NVS_KEY := until_nul p]> (nvs_ram w) else ∅).
Proof.
  intros Hav [Hpos Hlt] Hdata Hset.
  pose proof (until_nul_length p) as Hle.
  rewrite (rx_turn_persist w data p) by (first [rewrite Hav; apply take_ge; lia | lia]).
  set (w5 := before_replay w p).
  assert (Hread : replay_read w5 =
    (ESP_OK, until_nul p ++ NUL :: drop (S (length (until_nul p))) (replay_block w5),
     Z.of_nat (length (until_nul p)) + 1)).
  { unfold replay_read. apply nvs_read_found.
    - subst w5. unfold before_replay. world_fields. rewrite Hset. apply lookup_insert_eq.
    - unfold RX_BUF_SIZE in *. lia. }
  destruct (tx_task_run w5 (length (until_nul p))) as (w6 & Hrun & Htr & Hram & _).
  { unfold replay_buffer. rewrite Hread. apply strlen_stored. }
  rewrite Hrun. unfold finish_turn. cbn [fst snd].
  eexists. split; [reflexivity|].
  world_fields. rewrite Htr, Hram.
  unfold replay_status, replay_buffer. rewrite Hread. cbn [fst snd].
  rewrite take_app_length.
  subst w5. unfold before_replay. world_fields. rewrite Hset. flatten_trace.
  split; [|reflexivity].
  unfold cycle_events, persist_events, send_events, logged_speed, tx_result, tick_at, status.
  world_fields. rewrite Hset, !hd_nth, !nth_tail. flatten_trace. f_equal.
Qed.

Lemma cycle_events_run (w : World) (data p : list byte) :
  rx_available w = p ->
  (0 < length p < Z.to_nat RX_BUF_SIZE)%nat ->
  (length p < length data)%nat ->
  hd false (set_faults w) = false ->
  fst (run (rx_task_body data) w) = Some (p ++ NUL :: drop (S (length p)) data) /\
  events (rx_task_body data) w = cycle_events w p.
Proof.
  intros Hav Hp Hdata Hset.
  destruct (cycle_run w data p Hav Hp Hdata Hset) as (w' & Hrun & Htr & _).
  split; [by rewrite Hrun|]. apply events_app. by rewrite Hrun.
Qed.

Lemma sendData_events (w : World) (logName : string) (data : list byte) (n : nat) :
  strlen data = Some n ->
  fst (run (sendData logName data) w) = Some tt /\
  events (sendData logName data) w = send_events w logName (take n data).
Proof.
  intros Hn. destruct (sendData_run w logName data n Hn) as (w' & Hrun & Htr & _).
  split; [by rewrite Hrun|]. apply events_app. by rewrite Hrun.
Qed.

(** *** The claims *)

(** C1: for every payload [p] with [0 < length p < RX_BUF_SIZE] that arrives
    in one receive call, the turn of the loop that receives it (receive,
    persist, replay, erase; the store taking the write) hands to the transmit
    call exactly once, and exactly the bytes of [p] up to its first null
    byte; that is [p] itself when [p] holds no null byte. *)
Theorem C1_cycle_transmits_payload (w : World) (data p : list byte) :
  rx_available w = p ->
  (0 < length p < Z.to_nat RX_BUF_SIZE)%nat ->
  length data = Z.to_nat (RX_BUF_SIZE + 1) ->
  hd false (set_faults w) = false ->
  is_Some (fst (run (rx_task_body data) w)) /\
  received (events (rx_task_body data) w) = [p] /\
  transmitted (events (rx_task_body data) w) = [until_nul p] /\
  (NUL ∉ p -> transmitted (events (rx_task_body data) w) = [p]).
Proof.
  intros Hav Hp Hdata Hset.
  destruct (cycle_events_run w data p Hav Hp) as [Hres Hev]; [|exact Hset|].
  { rewrite Hdata. unfold RX_BUF_SIZE in *. lia. }
  rewrite Hres, Hev. split_and!; [by eexists | reflexivity | reflexivity |].
  intros Hnul. cbn. by rewrite until_nul_no_nul.
Qed.


(** C4 (as the code has it): a receive call takes up to [RX_BUF_SIZE] = 1024
    bytes (the block has one more byte, for the terminator).  The bytes
    received are the first 1024 on offer, all 1024 of them when that many are
    there; they are handed to the store write as a C string; and the rest is
    not dropped: it stays in the driver's receive ring for the next receive
    call. *)
Theorem C4_reception_takes_full_buffer (w : World) (data : list byte) :
  length data = Z.to_nat (RX_BUF_SIZE + 1) ->
  rx_available w <> [] ->
  (length (take (Z.to_nat RX_BUF_SIZE) (rx_available w)) <= Z.to_nat RX_BUF_SIZE)%nat /\
  ((Z.to_nat RX_BUF_SIZE <= length (rx_available w))%nat ->
   length (take (Z.to_nat RX_BUF_SIZE) (rx_available w)) = Z.to_nat RX_BUF_SIZE) /\
  received (events (rx_task_body data) w) = [take (Z.to_nat RX_BUF_SIZE) (rx_available w)] /\
  written (events (rx_task_body data) w) =
    [until_nul (take (Z.to_nat RX_BUF_SIZE) (rx_available w))] /\
  rx_ring (snd (run (rx_task_body data) w)) =
    drop (Z.to_nat RX_BUF_SIZE) (rx_available w).
Proof.
  intros Hdata Hav.
  assert (Hle : (length (take (Z.to_nat RX_BUF_SIZE) (rx_available w))
                 <= Z.to_nat RX_BUF_SIZE)%nat)
    by (rewrite length_take; lia).
  destruct (rx_turn_prefix w data _ eq_refl) as (Hring & rest & Hev & Hrec & Hwr).
  { destruct (rx_available w); [done|].
    change (Z.to_nat RX_BUF_SIZE) with (S 1023). cbn [take length]. lia. }
  { rewrite Hdata. unfold RX_BUF_SIZE in *. lia. }
  rewrite Hev, received_app, written_app, Hrec, Hwr.
  split_and!; [exact Hle | | reflexivity | reflexivity | exact Hring].
  intros Hfull. rewrite length_take. lia.
Qed.

(** C5: once the erase step of [sendData] has completed successfully (the
    erasure and its commit both returned [ESP_OK]), an immediate read of the
    key finds no record, and none is left in the committed store either. *)
Theorem C5_read_after_erase_not_found
    (w : World) (logName : string) (data out_value : list byte) (len : Z) :
  In (ObsNvsEraseAll ESP_OK) (events (sendData logName data) w) ->
  In (ObsNvsCommit ESP_OK) (events (sendData logName data) w) ->
  fst (do_nvs_get_str NVS_KEY out_value len (snd (run (sendData logName data) w))) =
    (ESP_ERR_NVS_NOT_FOUND, out_value, len) /\
  nvs_flash (snd (run (sendData logName data) w)) !! NVS_KEY = None.
Proof.
  destruct (strlen data) as [n|] eqn:Hn.
  - destruct (sendData_run w logName data n Hn) as (w' & Hrun & Htr & Hram & Hfl & _).
    rewrite (events_app _ _ _ ltac:(rewrite Hrun; exact Htr)), Hrun. cbn [fst snd].
    unfold send_events, status. intros He Hc.
    assert (hd false (erase_faults w) = false) as Herase.
    { destruct (hd false (erase_faults w)); [|reflexivity].
      cbn in He. intuition discriminate. }
    assert (hd false (commit_faults w) = false) as Hcommit.
    { destruct (hd false (commit_faults w)); [|reflexivity].
      cbn in Hc. intuition discriminate. }
    rewrite Herase in Hram. rewrite Herase, Hcommit in Hfl.
    unfold do_nvs_get_str. cbn [fst]. world_fields.
    rewrite Hram, Hfl. split; [|apply lookup_empty].
    apply nvs_read_not_found, lookup_empty.
  - unfold events. rewrite sendData_undefined by exact Hn. cbn [snd].
    rewrite drop_all. intros [].
Qed.

(** C7: a turn whose receive call returns zero bytes ends after the wait and
    the 3000 ms delay: it writes nothing to the store, commits nothing,
    transmits nothing, leaves the store as it was, and the loop goes on to
    its next wait with the same block. *)
Theorem C7_no_data_turn_is_idle (w : World) (data : list byte) (n : nat) :
  rx_available w = [] ->
  fst (run (rx_task_body data) w) = Some data /\
  events (rx_task_body data) w =
    [ ObsLog RX_TASK_TAG MsgWaiting;
      ObsTick (tick_at 0 w);
      ObsUartRead RX_BUF_SIZE (1000 / portTICK_PERIOD_MS) [];
      ObsTick (tick_at 1 w);
      ObsDelay (3000 / portTICK_PERIOD_MS) ] /\
  filter (fun o => mutates o = true) (events (rx_task_body data) w) = [] /\
  nvs_ram (snd (run (rx_task_body data) w)) = nvs_ram w /\
  nvs_flash (snd (run (rx_task_body data) w)) = nvs_flash w /\
  run (rx_task_loop (S n) data) w =
    run (rx_task_loop n data) (snd (run (rx_task_body data) w)).
Proof.
  intros Hav.
  assert (Hev : events (rx_task_body data) w =
    [ ObsLog RX_TASK_TAG MsgWaiting;
      ObsTick (tick_at 0 w);
      ObsUartRead RX_BUF_SIZE (1000 / portTICK_PERIOD_MS) [];
      ObsTick (tick_at 1 w);
      ObsDelay (3000 / portTICK_PERIOD_MS) ]).
  { apply events_app. rewrite (rx_turn_idle w data Hav). cbn [snd].
    world_fields. by flatten_trace. }
  rewrite Hev. cbn [rx_task_loop]. rewrite run_bind.
  rewrite (rx_turn_idle w data Hav). cbn [fst snd]. world_fields.
  split_and!; reflexivity.
Qed.

(** C8: when the transmit call of a cycle returns fewer bytes than it was
    given, the count it returned is what the log line reports, no second
    transmit call is made, the erasure and its commit still run, and the turn
    ends with its two delays, the loop going on to its next wait. *)
Theorem C8_partial_transmit_goes_on (w : World) (data p : list byte) (n : nat) :
  rx_available w = p ->
  (0 < length p < Z.to_nat RX_BUF_SIZE)%nat ->
  length data = Z.to_nat (RX_BUF_SIZE + 1) ->
  hd false (set_faults w) = false ->
  tx_result w (until_nul p) < Z.of_nat (length (until_nul p)) ->
  transmitted (events (rx_task_body data) w) = [until_nul p] /\
  drop 10 (events (rx_task_body data) w) =
    [ ObsUartWrite (until_nul p) (tx_result w (until_nul p));
      ObsTick (tick_at 3 w);
      ObsLog TX_TASK_TAG (MsgWrote (tx_result w (until_nul p)));
      ObsLog TX_TASK_TAG
        (MsgTxSpeed (logged_speed (tx_result w (until_nul p)) (tick_at 2 w) (tick_at 3 w)));
      ObsNvsEraseAll (status (hd false (erase_faults w)));
      ObsNvsCommit (status (nth 1 (commit_faults w) false));
      ObsDelay (2000 / portTICK_PERIOD_MS);
      ObsDelay (3000 / portTICK_PERIOD_MS) ] /\
  exists data',
    fst (run (rx_task_body data) w) = Some data' /\
    run (rx_task_loop (S n) data) w =
      run (rx_task_loop n data') (snd (run (rx_task_body data) w)).
Proof.
  intros Hav Hp Hdata Hset _.
  destruct (cycle_events_run w data p Hav Hp) as [Hres Hev]; [|exact Hset|].
  { rewrite Hdata. unfold RX_BUF_SIZE in *. lia. }
  rewrite Hev. split_and!; [reflexivity | reflexivity |].
  eexists. split; [exact Hres|].
  cbn [rx_task_loop]. rewrite run_bind. by rewrite Hres.
Qed.

(** C9: when the first null byte of the replay buffer is at position [n]
    (the buffer is [t], of [n] bytes none of which is null, then a null byte,
    then anything), [tx_task] hands to the transmit call exactly the [n]
    bytes [t].  The length the store read reports ([data_size]) plays no
    part: any world with the same buffer after the read, whatever its read
    reported, transmits the same [n] bytes. *)
Theorem C9_transmit_count_is_strlen (w : World) (t rest : list byte) :
  replay_buffer w = t ++ NUL :: rest ->
  Forall (fun b : byte => b <> NUL) t ->
  fst (run tx_task w) = Some tt /\
  transmitted (events tx_task w) = [t] /\
  map length (transmitted (events tx_task w)) = [length t] /\
  forall w2 : World,
    replay_buffer w2 = replay_buffer w ->
    transmitted (events tx_task w2) = [t].
Proof.
  intros Hbuf Ht.
  assert (Hone : forall v : World,
    replay_buffer v = replay_buffer w ->
    fst (run tx_task v) = Some tt /\ transmitted (events tx_task v) = [t]).
  { intros v Hv.
    assert (Hn : strlen (replay_buffer v) = Some (length t))
      by (rewrite Hv, Hbuf; by apply strlen_first_nul).
    destruct (tx_task_run v _ Hn) as (v' & Hrun & _).
    rewrite Hrun, tx_task_transmitted, Hn, Hv, Hbuf.
    split; [reflexivity|]. by rewrite take_app_length. }
  destruct (Hone w eq_refl) as [Hrun Htx].
  rewrite Htx. split_and!; [exact Hrun | reflexivity | reflexivity |].
  intros w2 Hw2. by apply Hone.
Qed.

(** C10 (as the code has it): after the erase step of a full cycle the
    controller sleeps twice in a row before its next receive: 2000 ms at the
    end of [tx_task], then 3000 ms at the end of the loop turn, 5000 ms in
    all (for a tick rate that divides 1000 Hz). *)
Theorem C10_cooldown_is_two_delays (w : World) (data p : list byte) :
  0 < configTICK_RATE_HZ ->
  (configTICK_RATE_HZ | 1000) ->
  rx_available w = p ->
  (0 < length p < Z.to_nat RX_BUF_SIZE)%nat ->
  length data = Z.to_nat (RX_BUF_SIZE + 1) ->
  hd false (set_faults w) = false ->
  drop 15 (events (rx_task_body data) w) =
    [ ObsNvsCommit (status (nth 1 (commit_faults w) false));
      ObsDelay (2000 / portTICK_PERIOD_MS);
      ObsDelay (3000 / portTICK_PERIOD_MS) ] /\
  2000 / portTICK_PERIOD_MS * portTICK_PERIOD_MS = 2000 /\
  3000 / portTICK_PERIOD_MS * portTICK_PERIOD_MS = 3000 /\
  delay_ticks (events (rx_task_body data) w) * portTICK_PERIOD_MS = 5000.
Proof.
  intros Hrate [k Hk] Hav Hp Hdata Hset.
  destruct (cycle_events_run w data p Hav Hp) as [_ Hev]; [|exact Hset|].
  { rewrite Hdata. unfold RX_BUF_SIZE in *. lia. }
  assert (Hperiod : portTICK_PERIOD_MS = k).
  { unfold portTICK_PERIOD_MS. rewrite Hk. apply Z.div_mul. lia. }
  assert (Hkpos : 0 < k) by nia.
  assert (H2 : 2000 / portTICK_PERIOD_MS * portTICK_PERIOD_MS = 2000).
  { rewrite Hperiod. replace 2000 with (2 * configTICK_RATE_HZ * k) at 1 by lia.
    rewrite Z.div_mul by lia. lia. }
  assert (H3 : 3000 / portTICK_PERIOD_MS * portTICK_PERIOD_MS = 3000).
  { rewrite Hperiod. replace 3000 with (3 * configTICK_RATE_HZ * k) at 1 by lia.
    rewrite Z.div_mul by lia. lia. }
  rewrite Hev. split_and!; [reflexivity | exact H2 | exact H3 |].
  cbn [cycle_events delay_ticks]. lia.
Qed.

(** *** Further properties of the routines *)

Lemma platform_trace {X : Type} (c : Call X) (w : World) :
  exists l, trace (snd (platform c w)) = trace w ++ l.
Proof.
  destruct c; cbn; first [by eexists [_] | exists []; by rewrite app_nil_r].
Qed.

(** Running a program only adds to the trace. *)
Lemma trace_grows {R : Type} (p : prog R) (w : World) :
  exists l, trace (snd (run p w)) = trace w ++ l.
Proof.
  revert w. induction p as [r| |X c k IH]; intros w; cbn [run snd].
  - exists []. by rewrite app_nil_r.
  - exists []. by rewrite app_nil_r.
  - destruct (platform_trace c w) as [l1 H1].
    destruct (IH (fst (platform c w)) (snd (platform c w))) as [l2 H2].
    exists (l1 ++ l2). by rewrite H2, H1, app_assoc.
Qed.

Lemma events_trace {R : Type} (p : prog R) (w : World) :
  trace (snd (run p w)) = trace w ++ events p w.
Proof.
  destruct (trace_grows p w) as [l Hl]. by rewrite (events_app p w l Hl).
Qed.

Lemma events_bind {A B : Type} (p : prog A) (f : A -> prog B) (w : World) (a : A) :
  fst (run p w) = Some a ->
  events (p ≫= f) w = events p w ++ events (f a) (snd (run p w)).
Proof.
  intros Ha. apply events_app. rewrite run_bind, Ha.
  by rewrite events_trace, (events_trace p w), app_assoc.
Qed.

Lemma transmitted_app (l1 l2 : list Obs) :
  transmitted (l1 ++ l2) = transmitted l1 ++ transmitted l2.
Proof.
  induction l1 as [|o l1 IH]; [reflexivity|]. destruct o; cbn; by rewrite ?IH.
Qed.

Lemma delay_ticks_app (l1 l2 : list Obs) :
  delay_ticks (l1 ++ l2) = delay_ticks l1 + delay_ticks l2.
Proof.
  induction l1 as [|o l1 IH]; [reflexivity|]. destruct o; cbn; rewrite ?IH; lia.
Qed.

Lemma nvs_read_too_long (ram : gmap string (list byte)) (key : string)
    (s out_value : list byte) (len : Z) :
  ram !! key = Some s ->
  len <= Z.of_nat (length s) ->
  nvs_read ram key out_value len =
  (ESP_ERR_NVS_INVALID_LENGTH, out_value, Z.of_nat (length s) + 1).
Proof.
  intros Hk Hlen. unfold nvs_read. rewrite Hk.
  destruct (Z.ltb_spec len (Z.of_nat (length s) + 1)); [reflexivity | lia].
Qed.

Lemma replay_block_length (w : World) : length (replay_block w) = Z.to_nat RX_BUF_SIZE.
Proof. unfold replay_block. apply length_resize. Qed.

(** The replay buffer is still the 1024-byte block after the read. *)
Lemma replay_buffer_length (w : World) : length (replay_buffer w) = Z.to_nat RX_BUF_SIZE.
Proof.
  unfold replay_buffer, replay_read, nvs_read.
  pose proof (replay_block_length w) as Hb.
  destruct (nvs_ram w !! NVS_KEY) as [s|]; cbn [fst snd]; [|exact Hb].
  destruct (Z.ltb_spec RX_BUF_SIZE (Z.of_nat (length s) + 1)); cbn [fst snd]; [exact Hb|].
  rewrite length_app. cbn [length]. rewrite length_drop, Hb.
  unfold RX_BUF_SIZE in *. lia.
Qed.

(** A read that leaves the buffer without a null byte left the block as the
    heap handed it out. *)
Lemma replay_buffer_no_nul (w : World) :
  strlen (replay_buffer w) = None -> strlen (replay_block w) = None.
Proof.
  unfold replay_buffer, replay_read, nvs_read.
  destruct (nvs_ram w !! NVS_KEY) as [s|]; cbn [fst snd]; [|done].
  destruct (RX_BUF_SIZE <? Z.of_nat (length s) + 1); cbn [fst snd]; [done|].
  by rewrite strlen_app_nul.
Qed.

Lemma sendData_keeps (w : World) (logName : string) (data : list byte) :
  rx_side (snd (run (sendData logName data) w)) = rx_side w.
Proof.
  destruct (strlen data) as [n|] eqn:Hn.
  - unfold sendData. rewrite Hn, run_defined_bind. do 7 run_call. run_ret.
    reflexivity.
  - by rewrite sendData_undefined.
Qed.

Lemma tx_task_keeps (w : World) : rx_side (snd (run tx_task w)) = rx_side w.
Proof.
  unfold tx_task. do 3 run_call.
  destruct (nvs_read _ NVS_KEY _ RX_BUF_SIZE) as [[e d] sz]. cbn [fst snd].
  rewrite run_bind.
  pose proof (sendData_keeps
    (record (ObsNvsGet NVS_KEY RX_BUF_SIZE e) (set_heap_blocks (tail (heap_blocks w)) w))
    TX_TASK_TAG d) as Hk.
  destruct (run (sendData TX_TASK_TAG d) _) as [[[]|] w1]; cbn [fst snd] in *.
  - run_call. run_ret. exact Hk.
  - exact Hk.
Qed.

Lemma replay_of_record (w : World) (s : list byte) :
  nvs_ram w !! NVS_KEY = Some s ->
  (length s < Z.to_nat RX_BUF_SIZE)%nat ->
  fst (run tx_task w) = Some tt /\
  replay_read w =
    (ESP_OK, s ++ NUL :: drop (S (length s)) (replay_block w), Z.of_nat (length s) + 1) /\
  transmitted (events tx_task w) = [until_nul s].
Proof.
  intros Hk Hlen.
  assert (Hread : replay_read w =
    (ESP_OK, s ++ NUL :: drop (S (length s)) (replay_block w), Z.of_nat (length s) + 1)).
  { unfold replay_read. apply nvs_read_found; [exact Hk|]. unfold RX_BUF_SIZE in *. lia. }
  assert (Hn : strlen (replay_buffer w) = Some (length (until_nul s))).
  { unfold replay_buffer. rewrite Hread. apply strlen_app_nul. }
  destruct (tx_task_run w _ Hn) as (w' & Hrun & _).
  rewrite Hrun. split_and!; [reflexivity | exact Hread |].
  rewrite tx_task_transmitted, Hn. unfold replay_buffer. rewrite Hread. cbn [fst snd].
  by rewrite take_until_nul.
Qed.

(** X1: with a record under the key that fits the 1024-byte block with its
    terminator, [tx_task] is well defined, the read succeeds and reports the
    length of the record plus one, and the bytes transmitted are the record
    (up to a null byte, should it hold one): what the store holds is what
    goes out. *)
Theorem tx_task_replays_record (w : World) (s : list byte) :
  nvs_ram w !! NVS_KEY = Some s ->
  (length s < Z.to_nat RX_BUF_SIZE)%nat ->
  fst (run tx_task w) = Some tt /\
  replay_status w = ESP_OK /\
  replay_data_size w = Z.of_nat (length s) + 1 /\
  transmitted (events tx_task w) = [until_nul s] /\
  (until_nul s = s -> transmitted (events tx_task w) = [s]).
Proof.
  intros Hk Hlen. destruct (replay_of_record w s Hk Hlen) as (Hrun & Hread & Htx).
  unfold replay_status, replay_data_size. rewrite Hread, Hrun, Htx.
  split_and!; try reflexivity. by intros ->.
Qed.

(** X2: whenever the replay buffer holds a null byte (the [strlen] of
    [sendData] then stays inside the block), [tx_task] makes exactly one
    transmit call and hands it fewer than [RX_BUF_SIZE] bytes: a C string
    inside the 1024-byte block is at most 1023 bytes long. *)
Theorem tx_task_transmits_below_buffer_size (w : World) :
  NUL ∈ replay_buffer w ->
  fst (run tx_task w) = Some tt /\
  exists t : list byte,
    transmitted (events tx_task w) = [t] /\
    (length t < Z.to_nat RX_BUF_SIZE)%nat.
Proof.
  intros Hin. destruct (strlen_elem_of _ Hin) as [n Hn].
  destruct (tx_task_run w n Hn) as (w' & Hrun & _).
  rewrite Hrun, tx_task_transmitted, Hn. split; [reflexivity|].
  eexists. split; [reflexivity|].
  apply strlen_lt in Hn. rewrite replay_buffer_length in Hn.
  rewrite length_take. unfold RX_BUF_SIZE in *. lia.
Qed.

(** X3: whatever the world, [tx_task] makes no receive call and no store
    write, and it leaves the driver's receive ring, the bytes still to
    arrive and the driver's configuration as they were. *)
Theorem tx_task_leaves_receive_side (w : World) :
  received (events tx_task w) = [] /\
  written (events tx_task w) = [] /\
  rx_side (snd (run tx_task w)) = rx_side w.
Proof.
  destruct (tx_task_frame w) as (_ & l & Htr & Hrec & Hwr).
  rewrite (events_app _ _ _ Htr). split_and!; [exact Hrec | exact Hwr |].
  apply tx_task_keeps.
Qed.

(** X4: [tx_task] is well defined as soon as the block [malloc] hands out
    holds a null byte, whatever the store holds and whatever the read
    reports: the read either leaves the block alone or puts a terminated
    string in it. *)
Theorem tx_task_defined_on_terminated_block (w : World) (n : nat) :
  strlen (replay_block w) = Some n ->
  fst (run tx_task w) = Some tt.
Proof.
  intros Hn. destruct (strlen (replay_buffer w)) as [m|] eqn:Hm.
  - destruct (tx_task_run w m Hm) as (w' & Hrun & _). by rewrite Hrun.
  - apply replay_buffer_no_nul in Hm. congruence.
Qed.


Lemma take_buffer_nonempty (l : list byte) :
  l <> [] -> (0 < length (take (Z.to_nat RX_BUF_SIZE) l))%nat.
Proof.
  destruct l; [done|]. intros _.
  change (Z.to_nat RX_BUF_SIZE) with (S 1023). cbn [take length]. lia.
Qed.

Lemma take_buffer_fits (l data : list byte) :
  length data = Z.to_nat (RX_BUF_SIZE + 1) ->
  (length (take (Z.to_nat RX_BUF_SIZE) l) < length data)%nat.
Proof. intros ->. rewrite length_take. unfold RX_BUF_SIZE. lia. Qed.

Lemma rx_side_fields (w1 w2 : World) :
  rx_side w1 = rx_side w2 ->
  rx_ring_size w1 = rx_ring_size w2 /\ rx_ring w1 = rx_ring w2 /\
  rx_arrivals w1 = rx_arrivals w2 /\ set_faults w1 = set_faults w2.
Proof.
  intros H. split_and!.
  - exact (f_equal (fun t => fst (fst (fst t))) H).
  - exact (f_equal (fun t => snd (fst (fst t))) H).
  - exact (f_equal (fun t => snd (fst t)) H).
  - exact (f_equal snd H).
Qed.

(** What a turn that received data leaves of the receive side. *)
Lemma rx_turn_rx_side (w : World) (data p : list byte) :
  take (Z.to_nat RX_BUF_SIZE) (rx_available w) = p ->
  (0 < length p)%nat ->
  (length p < length data)%nat ->
  rx_ring_size (snd (run (rx_task_body data) w)) = rx_ring_size w /\
  rx_ring (snd (run (rx_task_body data) w)) = drop (Z.to_nat RX_BUF_SIZE) (rx_available w) /\
  rx_arrivals (snd (run (rx_task_body data) w)) = tail (rx_arrivals w) /\
  set_faults (snd (run (rx_task_body data) w)) = tail (set_faults w).
Proof.
  intros Hav Hpos Hdata. rewrite (rx_turn_persist w data p Hav Hpos Hdata).
  set (w5 := before_replay w p).
  destruct (rx_side_fields _ _ (tx_task_keeps w5)) as (Hsz & Hrg & Har & Hsf).
  unfold finish_turn.
  destruct (run tx_task w5) as [[[]|] w6]; cbn [fst snd] in *;
    world_fields; rewrite Hsz, Hrg, Har, Hsf; by split_and!.
Qed.

(** X6: on its block of [RX_BUF_SIZE + 1] bytes a turn of [rx_task] never
    steps outside a block on its own account ([data[rxBytes] = 0] is in
    bounds and the string handed to the store is terminated).  The one
    undefined behaviour a turn can run into is the [strlen] of [sendData] on
    a replay buffer that holds no null byte. *)
Theorem rx_turn_undefined_iff (w : World) (data : list byte) :
  length data = Z.to_nat (RX_BUF_SIZE + 1) ->
  fst (run (rx_task_body data) w) = None <->
  rx_available w <> [] /\
  strlen (replay_buffer
            (before_replay w (take (Z.to_nat RX_BUF_SIZE) (rx_available w)))) = None.
Proof.
  intros Hdata. destruct (rx_available w) as [|b l] eqn:Hav.
  - rewrite (rx_turn_idle w data Hav). cbn [fst]. split; [discriminate | intros [[] _]; reflexivity].
  - rewrite <- Hav.
    rewrite (rx_turn_persist w data _ eq_refl
               ltac:(apply take_buffer_nonempty; congruence)
               (take_buffer_fits _ _ Hdata)).
    set (w5 := before_replay w _). unfold finish_turn.
    destruct (strlen (replay_buffer w5)) as [n|] eqn:Hn.
    + destruct (tx_task_run w5 n Hn) as (w6 & -> & _). cbn [fst].
      split; [discriminate | intros [_ ?]; discriminate].
    + destruct (tx_task_undefined w5 Hn) as (w6 & -> & _). cbn [fst].
      split; [|reflexivity]. intros _. split; [congruence | reflexivity].
Qed.

(** X7: a turn that receives a full buffer of 1024 bytes without a null byte
    writes a 1024-byte record; the replay of the same turn cannot read it
    back, since the block of [tx_task] has 1024 bytes and the record needs
    1025 with its terminator: the read reports an insufficient length, and
    what is transmitted is the C string of the block as the heap handed it
    out, not the payload. *)
Theorem full_buffer_record_is_not_read_back (w : World) (data : list byte) (n : nat) :
  length data = Z.to_nat (RX_BUF_SIZE + 1) ->
  (Z.to_nat RX_BUF_SIZE <= length (rx_available w))%nat ->
  until_nul (take (Z.to_nat RX_BUF_SIZE) (rx_available w)) =
    take (Z.to_nat RX_BUF_SIZE) (rx_available w) ->
  hd false (set_faults w) = false ->
  strlen (replay_block w) = Some n ->
  written (events (rx_task_body data) w) = [take (Z.to_nat RX_BUF_SIZE) (rx_available w)] /\
  events (rx_task_body data) w !! 8%nat =
    Some (ObsNvsGet NVS_KEY RX_BUF_SIZE ESP_ERR_NVS_INVALID_LENGTH) /\
  transmitted (events (rx_task_body data) w) = [take n (replay_block w)].
Proof.
  intros Hdata Hfull Hnul Hset Hn.
  set (p := take (Z.to_nat RX_BUF_SIZE) (rx_available w)) in *.
  assert (Hlen : length p = Z.to_nat RX_BUF_SIZE) by (unfold p; rewrite length_take; lia).
  pose proof (rx_turn_persist w data p eq_refl
                ltac:(rewrite Hlen; unfold RX_BUF_SIZE; lia)
                (take_buffer_fits _ _ Hdata)) as Hrun.
  set (w5 := before_replay w p) in *.
  assert (Hread : replay_read w5 =
    (ESP_ERR_NVS_INVALID_LENGTH, replay_block w, Z.of_nat (length p) + 1)).
  { unfold replay_read. change (replay_block w5) with (replay_block w).
    apply nvs_read_too_long.
    - unfold w5, before_replay. world_fields. rewrite Hset, Hnul. apply lookup_insert_eq.
    - rewrite Hlen. unfold RX_BUF_SIZE. lia. }
  assert (Hbuf : strlen (replay_buffer w5) = Some n)
    by (unfold replay_buffer; rewrite Hread; exact Hn).
  destruct (tx_task_run w5 n Hbuf) as (w6 & Hrun5 & Htr & _).
  rewrite Hrun5 in Hrun. unfold finish_turn in Hrun. cbn [fst snd] in Hrun.
  assert (Hev : events (rx_task_body data) w =
    persist_events w p ++
    ObsNvsGet NVS_KEY RX_BUF_SIZE ESP_ERR_NVS_INVALID_LENGTH
    :: send_events w5 TX_TASK_TAG (take n (replay_block w))
    ++ [ObsDelay (2000 / portTICK_PERIOD_MS); ObsDelay (3000 / portTICK_PERIOD_MS)]).
  { apply events_app. rewrite Hrun. cbn [snd]. world_fields. rewrite Htr.
    unfold replay_status, replay_buffer. rewrite Hread. cbn [fst snd].
    unfold w5 at 1, before_replay. world_fields.
    rewrite <- !app_assoc. cbn [app]. by rewrite <- !app_assoc. }
  rewrite Hev. unfold persist_events, send_events. cbn [app written lookup list_lookup transmitted].
  rewrite Hnul. split_and!; reflexivity.
Qed.

(** The calls of a turn that received [p]: those up to the replay, those of
    the replay, and the closing delay when the replay came back. *)
Lemma rx_turn_events (w : World) (data p : list byte) :
  take (Z.to_nat RX_BUF_SIZE) (rx_available w) = p ->
  (0 < length p)%nat ->
  (length p < length data)%nat ->
  events (rx_task_body data) w =
    persist_events w p ++ events tx_task (before_replay w p) ++
    match fst (run tx_task (before_replay w p)) with
    | Some _ => [ObsDelay (3000 / portTICK_PERIOD_MS)]
    | None => []
    end.
Proof.
  intros Hav Hpos Hdata. apply events_app.
  rewrite (rx_turn_persist w data p Hav Hpos Hdata). unfold finish_turn.
  pose proof (events_trace tx_task (before_replay w p)) as Htr.
  destruct (fst (run tx_task (before_replay w p))); cbn [snd]; world_fields;
    rewrite Htr; unfold before_replay; world_fields;
    by rewrite <- ?app_assoc, ?app_nil_r.
Qed.

Lemma rx_turn_transmitted (w : World) (data p : list byte) :
  take (Z.to_nat RX_BUF_SIZE) (rx_available w) = p ->
  (0 < length p)%nat ->
  (length p < length data)%nat ->
  transmitted (events (rx_task_body data) w) =
  transmitted (events tx_task (before_replay w p)).
Proof.
  intros Hav Hpos Hdata. rewrite (rx_turn_events w data p Hav Hpos Hdata).
  rewrite !transmitted_app. unfold persist_events. cbn [transmitted app].
  destruct (fst (run tx_task (before_replay w p))); cbn [transmitted];
    by rewrite app_nil_r.
Qed.

(** X8: when the store write of a turn fails while an older record is still
    under the key, the replay of that turn reads the older record and
    transmits it: the bytes that go out are not the bytes that came in. *)
Theorem failed_write_replays_old_record (w : World) (data s : list byte) :
  length data = Z.to_nat (RX_BUF_SIZE + 1) ->
  rx_available w <> [] ->
  hd false (set_faults w) = true ->
  nvs_ram w !! NVS_KEY = Some s ->
  (length s < Z.to_nat RX_BUF_SIZE)%nat ->
  events (rx_task_body data) w !! 4%nat =
    Some (ObsNvsSet NVS_KEY
            (until_nul (take (Z.to_nat RX_BUF_SIZE) (rx_available w))) ESP_FAIL) /\
  transmitted (events (rx_task_body data) w) = [until_nul s].
Proof.
  intros Hdata Hav Hset Hk Hlen.
  set (p := take (Z.to_nat RX_BUF_SIZE) (rx_available w)).
  pose proof (take_buffer_nonempty _ Hav) as Hpos.
  pose proof (take_buffer_fits (rx_available w) data Hdata) as Hfit.
  split.
  - rewrite (rx_turn_events w data p eq_refl Hpos Hfit).
    unfold persist_events, status. cbn [app lookup list_lookup]. by rewrite Hset.
  - rewrite (rx_turn_transmitted w data p eq_refl Hpos Hfit).
    apply replay_of_record; [|exact Hlen].
    unfold before_replay. world_fields. by rewrite Hset.
Qed.

Lemma tick_sub_wrap (t d : Z) :
  0 <= d < TICK_MOD -> tick_sub ((t + d) mod TICK_MOD) t = d.
Proof.
  intros Hd. unfold tick_sub. rewrite Zminus_mod_idemp_l.
  replace (t + d - t) with d by lia. by apply Z.mod_small.
Qed.

(** X12: the elapsed tick count is taken modulo 2^32, as the tick counter
    is, so both speeds logged in a cycle are computed from the ticks that
    really went by, also when the counter wrapped between the two readings
    of a measurement. *)
Theorem logged_speeds_survive_tick_wrap (w : World) (data p : list byte) (d_rx d_tx : Z) :
  rx_available w = p ->
  (0 < length p < Z.to_nat RX_BUF_SIZE)%nat ->
  length data = Z.to_nat (RX_BUF_SIZE + 1) ->
  hd false (set_faults w) = false ->
  0 <= d_rx < TICK_MOD ->
  0 <= d_tx < TICK_MOD ->
  tick_at 1 w = (tick_at 0 w + d_rx) mod TICK_MOD ->
  tick_at 3 w = (tick_at 2 w + d_tx) mod TICK_MOD ->
  events (rx_task_body data) w !! 7%nat =
    Some (ObsLog RX_TASK_TAG
            (MsgRxSpeed
               (float_mul (float_div (float_of_int (Z.of_nat (length p))) (float_of_int d_rx))
                          (float_of_int configTICK_RATE_HZ)))) /\
  events (rx_task_body data) w !! 13%nat =
    Some (ObsLog TX_TASK_TAG
            (MsgTxSpeed
               (float_mul (float_div (float_of_int (tx_result w (until_nul p)))
                                     (float_of_int d_tx))
                          (float_of_int configTICK_RATE_HZ)))).
Proof.
  intros Hav Hp Hdata Hset Hrx Htx H1 H3.
  destruct (cycle_events_run w data p Hav Hp) as [_ Hev]; [|exact Hset|].
  { rewrite Hdata. unfold RX_BUF_SIZE in *. lia. }
  rewrite Hev. unfold cycle_events, logged_speed. cbn [lookup list_lookup].
  rewrite H1, H3, !tick_sub_wrap by assumption. split; reflexivity.
Qed.

Lemma rx_task_events (n : nat) (w : World) :
  events (rx_task n) w =
  events (rx_task_loop n (resize (Z.to_nat (RX_BUF_SIZE + 1)) NUL (hd [] (heap_blocks w))))
         (set_heap_blocks (tail (heap_blocks w)) w).
Proof. unfold events. by rewrite rx_task_block. Qed.

Lemma rx_loop_echo (ps : list (list byte)) :
  forall (w : World) (data : list byte),
    length data = Z.to_nat (RX_BUF_SIZE + 1) ->
    rx_ring w = [] ->
    rx_arrivals w = ps ->
    RX_BUF_SIZE <= rx_ring_size w ->
    Forall (fun p : list byte => (0 < length p < Z.to_nat RX_BUF_SIZE)%nat) ps ->
    Forall (fun failed : bool => failed = false) (set_faults w) ->
    is_Some (fst (run (rx_task_loop (length ps) data) w)) /\
    received (events (rx_task_loop (length ps) data) w) = ps /\
    transmitted (events (rx_task_loop (length ps) data) w) = map until_nul ps.
Proof.
  induction ps as [|p ps IH]; intros w data Hdata Hring Harr Hsize Hps Hfaults.
  - cbn [length rx_task_loop]. unfold events. run_ret. cbn [fst snd].
    rewrite drop_all. split_and!; [by eexists | reflexivity | reflexivity].
  - inversion Hps as [|? ? Hp Hps']; subst.
    assert (Hav : rx_available w = p).
    { unfold rx_available. rewrite Hring, Harr. cbn [hd app].
      apply take_ge. unfold RX_BUF_SIZE in *. lia. }
    assert (Hset : hd false (set_faults w) = false)
      by (destruct Hfaults; [reflexivity | assumption]).
    assert (Hfit : (length p < length data)%nat)
      by (rewrite Hdata; unfold RX_BUF_SIZE in *; lia).
    destruct (cycle_events_run w data p Hav Hp Hfit Hset) as [Hres Hev].
    destruct (rx_turn_rx_side w data p
                ltac:(rewrite Hav; apply take_ge; lia) ltac:(lia) Hfit)
      as (Hsz & Hrg & Har & Hsf).
    set (w1 := snd (run (rx_task_body data) w)) in *.
    destruct (IH w1 (p ++ NUL :: drop (S (length p)) data)) as (Hsome & Hrec & Htx).
    + rewrite length_app. cbn [length]. rewrite length_drop. lia.
    + rewrite Hrg, Hav. apply drop_ge. lia.
    + by rewrite Har, Harr.
    + by rewrite Hsz.
    + exact Hps'.
    + rewrite Hsf. destruct Hfaults; [constructor | assumption].
    + cbn [length rx_task_loop].
      rewrite (events_bind _ _ _ _ Hres), Hev, received_app, transmitted_app.
      fold w1. rewrite Hrec, Htx, run_bind, Hres. fold w1.
      split_and!; [exact Hsome | reflexivity | reflexivity].
Qed.

(** X9: payloads that arrive one per receive call, each of 1 to 1023 bytes,
    on a driver whose ring holds at least a buffer, with every store write
    accepted, are all received by [rx_task], in order, and each is
    transmitted back, cut at its first null byte, before the next one is
    received; commits, erasures and transmit results may fail or fall short
    without changing that. *)
Theorem rx_task_echoes_every_payload (ps : list (list byte)) (w : World) :
  rx_ring w = [] ->
  rx_arrivals w = ps ->
  RX_BUF_SIZE <= rx_ring_size w ->
  Forall (fun p : list byte => (0 < length p < Z.to_nat RX_BUF_SIZE)%nat) ps ->
  Forall (fun failed : bool => failed = false) (set_faults w) ->
  is_Some (fst (run (rx_task (length ps)) w)) /\
  received (events (rx_task (length ps)) w) = ps /\
  transmitted (events (rx_task (length ps)) w) = map until_nul ps.
Proof.
  intros Hring Harr Hsize Hps Hfaults.
  rewrite rx_task_events, rx_task_block.
  apply rx_loop_echo; try assumption. apply length_resize.
Qed.

Lemma rx_loop_idle (n : nat) :
  forall (w : World) (data : list byte),
    rx_ring w = [] ->
    Forall (fun chunk : list byte => chunk = []) (rx_arrivals w) ->
    fst (run (rx_task_loop n data) w) = Some data /\
    filter (fun o => mutates o = true) (events (rx_task_loop n data) w) = [] /\
    received (events (rx_task_loop n data) w) = repeat [] n /\
    delay_ticks (events (rx_task_loop n data) w) =
      Z.of_nat n * (3000 / portTICK_PERIOD_MS) /\
    nvs_ram (snd (run (rx_task_loop n data) w)) = nvs_ram w /\
    nvs_flash (snd (run (rx_task_loop n data) w)) = nvs_flash w.
Proof.
  induction n as [|n IH]; intros w data Hring Harr.
  - cbn [rx_task_loop]. unfold events. run_ret. cbn [fst snd]. rewrite drop_all.
    split_and!; reflexivity.
  - assert (Hav : rx_available w = []).
    { unfold rx_available. rewrite Hring.
      destruct Harr as [|c l Hc _]; [|subst c]; cbn [hd app]; apply take_nil. }
    pose proof (rx_turn_idle w data Hav) as Hrun.
    assert (Hev : events (rx_task_body data) w =
      [ ObsLog RX_TASK_TAG MsgWaiting;
        ObsTick (tick_at 0 w);
        ObsUartRead RX_BUF_SIZE (1000 / portTICK_PERIOD_MS) [];
        ObsTick (tick_at 1 w);
        ObsDelay (3000 / portTICK_PERIOD_MS) ]).
    { apply events_app. rewrite Hrun. cbn [snd]. world_fields. by flatten_trace. }
    assert (Hres : fst (run (rx_task_body data) w) = Some data) by (by rewrite Hrun).
    set (w1 := snd (run (rx_task_body data) w)) in *.
    destruct (IH w1 data) as (Hsome & Hmut & Hrec & Hdel & Hram & Hfl).
    + unfold w1. by rewrite Hrun.
    + unfold w1. rewrite Hrun. cbn [snd]. world_fields.
      destruct Harr; [constructor | assumption].
    + cbn [rx_task_loop].
      rewrite (events_bind _ _ _ _ Hres), Hev, run_bind, Hres. fold w1.
      rewrite filter_app, received_app, delay_ticks_app, Hmut, Hrec, Hdel, Hram, Hfl, Hsome.
      unfold w1. rewrite Hrun. cbn [snd]. world_fields.
      split_and!; try reflexivity.
      cbn [delay_ticks]. lia.
Qed.

(** X10: as long as nothing reaches the UART, [rx_task] only polls: over any
    number of turns it makes no store write, erasure, commit or transmit
    call, every receive call returns no byte, the store stays as it was, and
    the task sleeps 3000 ms per turn. *)
Theorem rx_task_only_polls_while_quiet (n : nat) (w : World) :
  rx_ring w = [] ->
  Forall (fun chunk : list byte => chunk = []) (rx_arrivals w) ->
  is_Some (fst (run (rx_task n) w)) /\
  filter (fun o => mutates o = true) (events (rx_task n) w) = [] /\
  received (events (rx_task n) w) = repeat [] n /\
  delay_ticks (events (rx_task n) w) = Z.of_nat n * (3000 / portTICK_PERIOD_MS) /\
  nvs_ram (snd (run (rx_task n) w)) = nvs_ram w /\
  nvs_flash (snd (run (rx_task n) w)) = nvs_flash w.
Proof.
  intros Hring Harr. rewrite rx_task_events, rx_task_block.
  destruct (rx_loop_idle n (set_heap_blocks (tail (heap_blocks w)) w)
              (resize (Z.to_nat (RX_BUF_SIZE + 1)) NUL (hd [] (heap_blocks w))))
    as (Hsome & Hmut & Hrec & Hdel & Hram & Hfl); [exact Hring | exact Harr |].
  rewrite Hsome, Hmut, Hrec, Hdel, Hram, Hfl.
  split_and!; try reflexivity. by eexists.
Qed.

(** X13: whatever arrives, a turn of [rx_task] makes at most one store write,
    and the value it hands to the store is a C string: it holds no null byte
    and is at most [RX_BUF_SIZE] bytes long, even when the bytes received
    hold null bytes or the block still holds bytes of an earlier, longer
    payload. *)
Theorem rx_turn_writes_one_c_string (w : World) (data : list byte) :
  length data = Z.to_nat (RX_BUF_SIZE + 1) ->
  (length (written (events (rx_task_body data) w)) <= 1)%nat /\
  Forall (fun v : list byte => until_nul v = v /\ (length v <= Z.to_nat RX_BUF_SIZE)%nat)
         (written (events (rx_task_body data) w)).
Proof.
  intros Hdata. destruct (rx_available w) as [|b l] eqn:Hav.
  - assert (Hev : events (rx_task_body data) w =
      [ ObsLog RX_TASK_TAG MsgWaiting;
        ObsTick (tick_at 0 w);
        ObsUartRead RX_BUF_SIZE (1000 / portTICK_PERIOD_MS) [];
        ObsTick (tick_at 1 w);
        ObsDelay (3000 / portTICK_PERIOD_MS) ]).
    { apply events_app. rewrite (rx_turn_idle w data Hav). cbn [snd].
      world_fields. by flatten_trace. }
    rewrite Hev. cbn [written length]. split; [lia | constructor].
  - destruct (rx_turn_prefix w data _ eq_refl
                ltac:(apply take_buffer_nonempty; congruence)
                (take_buffer_fits _ _ Hdata)) as (_ & rest & Hev & _ & Hwr).
    rewrite Hev, written_app, Hwr. unfold persist_events. cbn [written app length].
    split; [lia|]. constructor; [|constructor].
    split; [apply until_nul_idemp|].
    etransitivity; [apply until_nul_length|]. rewrite length_take. lia.
Qed.

(** The replay starts with the store read, whatever it then does. *)
Lemma tx_task_first_event (w : World) :
  exists rest,
    events tx_task w = ObsNvsGet NVS_KEY RX_BUF_SIZE (replay_status w) :: rest.
Proof.
  destruct (strlen (replay_buffer w)) as [n|] eqn:Hn.
  - destruct (tx_task_run w n Hn) as (w' & Hrun & Htr & _).
    rewrite (events_app _ _ _ ltac:(rewrite Hrun; exact Htr)). by eexists.
  - destruct (tx_task_undefined w Hn) as (w' & Hrun & Htr & _).
    rewrite (events_app _ _ _ ltac:(rewrite Hrun; exact Htr)). by eexists.
Qed.

(** C6 (as the code has it): the status of the commit that follows the store
    write is not looked at.  In every turn that received data, whether that
    commit succeeds or fails, it is attempted once, the two log lines follow,
    and the turn goes on to the replay, which starts with the store read.
    When the store took the write and the payload is shorter than
    [RX_BUF_SIZE], that read succeeds and the replay transmits the value just
    written, committed or not. *)
Theorem C6_commit_status_ignored (w : World) (data : list byte) :
  length data = Z.to_nat (RX_BUF_SIZE + 1) ->
  rx_available w <> [] ->
  take 5 (drop 4 (events (rx_task_body data) w)) =
    [ ObsNvsSet NVS_KEY (until_nul (take (Z.to_nat RX_BUF_SIZE) (rx_available w)))
                (status (hd false (set_faults w)));
      ObsNvsCommit (status (hd false (commit_faults w)));
      ObsLog RX_TASK_TAG
        (MsgRead (Z.of_nat (length (take (Z.to_nat RX_BUF_SIZE) (rx_available w))))
                 (until_nul (take (Z.to_nat RX_BUF_SIZE) (rx_available w))));
      ObsLog RX_TASK_TAG
        (MsgRxSpeed
           (logged_speed (Z.of_nat (length (take (Z.to_nat RX_BUF_SIZE) (rx_available w))))
                         (tick_at 0 w) (tick_at 1 w)));
      ObsNvsGet NVS_KEY RX_BUF_SIZE
        (replay_status
           (before_replay w (take (Z.to_nat RX_BUF_SIZE) (rx_available w)))) ] /\
  (hd false (set_faults w) = false ->
   (length (rx_available w) < Z.to_nat RX_BUF_SIZE)%nat ->
   replay_status (before_replay w (take (Z.to_nat RX_BUF_SIZE) (rx_available w))) = ESP_OK /\
   transmitted (drop 9 (events (rx_task_body data) w)) = [until_nul (rx_available w)]).
Proof.
  intros Hdata Hav.
  set (p := take (Z.to_nat RX_BUF_SIZE) (rx_available w)).
  pose proof (take_buffer_nonempty _ Hav) as Hpos.
  pose proof (take_buffer_fits (rx_available w) data Hdata) as Hfit.
  split.
  - rewrite (rx_turn_events w data p eq_refl Hpos Hfit).
    destruct (tx_task_first_event (before_replay w p)) as [rest ->].
    unfold persist_events. reflexivity.
  - intros Hset Hlen.
    assert (Hp : take (Z.to_nat RX_BUF_SIZE) (rx_available w) = rx_available w)
      by (apply take_ge; lia).
    subst p. rewrite Hp in Hpos |- *.
    destruct (cycle_events_run w data (rx_available w) eq_refl) as [_ Hev];
      [lia | rewrite Hdata; unfold RX_BUF_SIZE in *; lia | exact Hset |].
    rewrite Hev. split; [|reflexivity].
    unfold replay_status, replay_read.
    rewrite (nvs_read_found _ _ (until_nul (rx_available w))); [reflexivity | |].
    + unfold before_replay. world_fields. rewrite Hset. apply lookup_insert_eq.
    + pose proof (until_nul_length (rx_available w)). unfold RX_BUF_SIZE in *. lia.
Qed.

End Firmware.

(** ** The claims on the example worlds, at 100 ticks per second *)

(** C1 on scenario A: the 13 bytes ["hello world!\0"] are received and the
    12 bytes before the null byte are transmitted. *)
Lemma C1_witness :
  transmitted (events (rx_task_body 100 junk_block) w_hello) = [hello].
Proof.
  apply (C1_cycle_transmits_payload 100 w_hello junk_block (hello ++ [NUL]));
    [reflexivity | vm_compute; lia | reflexivity | reflexivity].
Defined.

(** C2 at a failing input: the store write of the turn fails, so the read of
    the replay reports that there is no record; [tx_task] goes on to
    [sendData] all the same, and what is transmitted is the content of the
    fresh heap block (here ["AB"]), not the payload.  The same happens when
    [tx_task] runs on a store that never held a record. *)
Theorem C2_not_found_transmits_heap_content :
  events (rx_task_body 100 junk_block) w_write_fails !! 8%nat =
    Some (ObsNvsGet NVS_KEY RX_BUF_SIZE ESP_ERR_NVS_NOT_FOUND) /\
  transmitted (events (rx_task_body 100 junk_block) w_write_fails) = [AB] /\
  events (tx_task 100) w_first_run !! 0%nat =
    Some (ObsNvsGet NVS_KEY RX_BUF_SIZE ESP_ERR_NVS_NOT_FOUND) /\
  transmitted (events (tx_task 100) w_first_run) = [AB].
Proof. vm_compute. repeat split. Qed.



(** C4 fails as stated: of 2000 bytes on offer the turn receives and writes
    1024, not 1023; the other 976 stay in the ring and the next turn receives
    them. *)
Lemma C4_counterexample :
  map length (received (events (rx_task_body 100 junk_block) w_2000)) = [1024%nat] /\
  map length (written (events (rx_task_body 100 junk_block) w_2000)) = [1024%nat] /\
  rx_ring (snd (run (rx_task_body 100 junk_block) w_2000)) = repeat Byte.x61 976 /\
  map length (received (events (rx_task_loop 100 2 junk_block) w_2000)) =
    [1024%nat; 976%nat].
Proof. vm_compute. repeat split. Qed.

(** C4 (as the code has it) on the same world. *)
Lemma C4_witness :
  received (events (rx_task_body 100 junk_block) w_2000) = [repeat Byte.x61 1024] /\
  rx_ring (snd (run (rx_task_body 100 junk_block) w_2000)) = repeat Byte.x61 976.
Proof.
  pose proof (C4_reception_takes_full_buffer 100 w_2000 junk_block eq_refl
                ltac:(vm_compute; discriminate)) as (_ & _ & Hrec & _ & Hring).
  split; [exact Hrec | exact Hring].
Defined.

(** The bound of C1 matters: a 1024-byte record does not fit the 1024-byte
    block of [tx_task] with its terminator, the read fails, and what is
    transmitted is the C string of the fresh heap block (empty here). *)
Example full_buffer_is_not_replayed :
  events (rx_task_body 100 junk_block) w_2000 !! 8%nat =
    Some (ObsNvsGet NVS_KEY RX_BUF_SIZE ESP_ERR_NVS_INVALID_LENGTH) /\
  transmitted (events (rx_task_body 100 junk_block) w_2000) = [[]].
Proof. vm_compute. repeat split. Qed.

(** C5 on a store that holds a committed record: [sendData] erases it. *)
Lemma C5_witness :
  nvs_flash w_stored !! NVS_KEY = Some hello /\
  fst (do_nvs_get_str NVS_KEY junk_block 1024
         (snd (run (sendData 100 TX_TASK_TAG (hello ++ [NUL])) w_stored))) =
    (ESP_ERR_NVS_NOT_FOUND, junk_block, 1024) /\
  nvs_flash (snd (run (sendData 100 TX_TASK_TAG (hello ++ [NUL])) w_stored)) !! NVS_KEY = None.
Proof.
  split; [vm_compute; reflexivity|].
  apply (C5_read_after_erase_not_found 100 w_stored TX_TASK_TAG (hello ++ [NUL])
           junk_block 1024); vm_compute; tauto.
Defined.

(** C6 fails as stated: the commit fails, the committed store holds no record
    when the replay starts, and the payload is transmitted all the same. *)
Lemma C6_counterexample :
  events (rx_task_body 100 junk_block) w_commit_fails !! 5%nat =
    Some (ObsNvsCommit ESP_FAIL) /\
  nvs_flash (before_replay 100 w_commit_fails hi) !! NVS_KEY = None /\
  transmitted (drop 6 (events (rx_task_body 100 junk_block) w_commit_fails)) = [hi].
Proof. vm_compute. repeat split. Qed.

(** C6 (as the code has it) on the same world: the commit fails and the
    payload is replayed all the same. *)
Lemma C6_witness :
  hd false (commit_faults w_commit_fails) = true /\
  transmitted (drop 9 (events (rx_task_body 100 junk_block) w_commit_fails)) = [hi].
Proof.
  split; [reflexivity|].
  pose proof (C6_commit_status_ignored 100 w_commit_fails junk_block eq_refl
                ltac:(vm_compute; discriminate)) as [_ Hreplay].
  destruct (Hreplay eq_refl ltac:(vm_compute; lia)) as [_ Htx].
  rewrite Htx. vm_compute. reflexivity.
Defined.

(** C7 on scenario B. *)
Lemma C7_witness :
  events (rx_task_body 100 junk_block) w_quiet =
    [ ObsLog RX_TASK_TAG MsgWaiting; ObsTick 10; ObsUartRead 1024 100 [];
      ObsTick 110; ObsDelay 300 ].
Proof.
  apply (C7_no_data_turn_is_idle 100 w_quiet junk_block 0). reflexivity.
Defined.

(** C8 on a transmit call that takes 5 of 12 bytes. *)
Lemma C8_witness :
  tx_result w_short_write hello = 5 /\
  In (ObsLog TX_TASK_TAG (MsgWrote 5))
     (drop 10 (events (rx_task_body 100 junk_block) w_short_write)) /\
  transmitted (events (rx_task_body 100 junk_block) w_short_write) = [hello].
Proof.
  pose proof (C8_partial_transmit_goes_on 100 w_short_write junk_block (hello ++ [NUL]) 0
                eq_refl ltac:(vm_compute; lia) eq_refl eq_refl ltac:(vm_compute; reflexivity))
    as (Htx & Hev & _).
  split; [reflexivity|]. split; [|exact Htx].
  rewrite Hev. right. right. left. reflexivity.
Defined.

(** C9 on two worlds with the same replay buffer ["AB\0..."]: on the first
    run the read finds no record and leaves [data_size] at 1024; with ["AB"]
    stored the read reports 3; both transmit the two bytes before the null
    byte. *)
Lemma C9_witness :
  replay_data_size w_first_run = 1024 /\
  replay_data_size w_AB_stored = 3 /\
  transmitted (events (tx_task 100) w_first_run) = [AB] /\
  transmitted (events (tx_task 100) w_AB_stored) = [AB].
Proof.
  pose proof (C9_transmit_count_is_strlen 100 w_first_run AB (repeat NUL 1021)
                ltac:(vm_compute; reflexivity)
                ltac:(constructor; [discriminate|]; constructor; [discriminate|]; constructor))
    as (_ & Htx & _ & Hsame).
  split; [vm_compute; reflexivity|]. split; [vm_compute; reflexivity|].
  split; [exact Htx|].
  apply (Hsame w_AB_stored). vm_compute. reflexivity.
Defined.

(** C9 on the first run: the read reports 1024 as length ([data_size] is left
    as it was), and 2 bytes are transmitted. *)
Example C9_first_run :
  replay_data_size w_first_run = 1024 /\
  strlen (replay_buffer w_first_run) = Some 2%nat /\
  transmitted (events (tx_task 100) w_first_run) = [AB].
Proof. vm_compute. repeat split. Qed.

(** C10 fails as stated: after the last commit of scenario A the turn sleeps
    200 then 300 ticks of 10 ms, five seconds, before the next receive. *)
Lemma C10_counterexample :
  drop 15 (events (rx_task_body 100 junk_block) w_hello) =
    [ObsNvsCommit ESP_OK; ObsDelay 200; ObsDelay 300] /\
  delay_ticks (events (rx_task_body 100 junk_block) w_hello) * portTICK_PERIOD_MS 100 = 5000 /\
  ~ (2000 <= 5000 <= 3000).
Proof. split; [vm_compute; reflexivity|]. split; [vm_compute; reflexivity|]. lia. Qed.

(** C10 (as the code has it) on scenario A. *)
Lemma C10_witness :
  delay_ticks (events (rx_task_body 100 junk_block) w_hello) * portTICK_PERIOD_MS 100 = 5000.
Proof.
  apply (C10_cooldown_is_two_delays 100 w_hello junk_block (hello ++ [NUL]));
    [lia | by exists 10 | reflexivity | vm_compute; lia | reflexivity | reflexivity].
Defined.

(** ** Further properties on the example worlds *)

(** X1 on a store that holds ["hello world!"]: the replay transmits it. *)
Lemma tx_task_replays_record_witness :
  transmitted (events (tx_task 100) w_stored) = [hello].
Proof.
  pose proof (tx_task_replays_record 100 w_stored hello
                ltac:(vm_compute; reflexivity) ltac:(vm_compute; lia))
    as (_ & _ & _ & H & _).
  exact H.
Defined.

(** X2 on the first run: the block holds a null byte at index 2. *)
Lemma tx_task_transmits_below_buffer_size_witness :
  fst (run (tx_task 100) w_first_run) = Some tt.
Proof.
  apply (tx_task_transmits_below_buffer_size 100 w_first_run).
  apply list_elem_of_lookup. exists 2%nat. vm_compute. reflexivity.
Defined.

(** X4 on the first run, where the heap block holds ["AB\0..."]. *)
Lemma tx_task_defined_on_terminated_block_witness :
  fst (run (tx_task 100) w_first_run) = Some tt.
Proof.
  apply (tx_task_defined_on_terminated_block 100 w_first_run 2).
  vm_compute. reflexivity.
Defined.


(** X6 on a heap block without a null byte and a failed write: the turn is
    undefined. *)
Lemma rx_turn_undefined_iff_witness :
  fst (run (rx_task_body 100 junk_block) w_no_nul) = None.
Proof.
  apply (proj2 (rx_turn_undefined_iff 100 w_no_nul junk_block eq_refl)).
  split; [vm_compute; discriminate | vm_compute; reflexivity].
Defined.

(** X7 on scenario D: 1024 bytes are written, the read fails, and the empty
    string of the zeroed heap block is what is transmitted. *)
Lemma full_buffer_record_is_not_read_back_witness :
  events (rx_task_body 100 junk_block) w_2000 !! 8%nat =
    Some (ObsNvsGet NVS_KEY RX_BUF_SIZE ESP_ERR_NVS_INVALID_LENGTH) /\
  transmitted (events (rx_task_body 100 junk_block) w_2000) = [[]].
Proof.
  pose proof (full_buffer_record_is_not_read_back 100 w_2000 junk_block 0
                eq_refl ltac:(vm_compute; lia) ltac:(vm_compute; reflexivity)
                eq_refl ltac:(vm_compute; reflexivity))
    as (_ & Hget & Htx).
  split; [exact Hget | exact Htx].
Defined.

(** X8: ["hi"] comes in, the write fails, ["hello world!"] goes out. *)
Lemma failed_write_replays_old_record_witness :
  received (events (rx_task_body 100 junk_block) w_stale) = [hi] /\
  transmitted (events (rx_task_body 100 junk_block) w_stale) = [hello].
Proof.
  split; [vm_compute; reflexivity|].
  apply (failed_write_replays_old_record 100 w_stale junk_block hello);
    [reflexivity | vm_compute; discriminate | reflexivity
    | vm_compute; reflexivity | vm_compute; lia].
Defined.

(** X9 on two payloads: both come back, in order. *)
Lemma rx_task_echoes_every_payload_witness :
  transmitted (events (rx_task 100 2) w_two) = [hello; hi].
Proof.
  pose proof (rx_task_echoes_every_payload 100 [hello ++ [NUL]; hi] w_two
                eq_refl eq_refl ltac:(vm_compute; discriminate)
                ltac:(constructor; [vm_compute; lia|];
                      constructor; [vm_compute; lia|]; constructor)
                ltac:(constructor))
    as (_ & _ & H).
  exact H.
Defined.

(** X10 on three quiet turns: 900 ticks of sleep and nothing else. *)
Lemma rx_task_only_polls_while_quiet_witness :
  filter (fun o => mutates o = true) (events (rx_task 100 3) w_quiet) = [] /\
  delay_ticks (events (rx_task 100 3) w_quiet) = 900.
Proof.
  pose proof (rx_task_only_polls_while_quiet 100 3 w_quiet eq_refl ltac:(constructor))
    as (_ & Hmut & _ & Hdel & _).
  split; [exact Hmut | exact Hdel].
Defined.

(** X12: the counter wraps during both calls; 5 and 2 ticks went by. *)
Lemma logged_speeds_survive_tick_wrap_witness :
  events (rx_task_body 100 junk_block) w_wrap !! 7%nat =
    Some (ObsLog RX_TASK_TAG
            (MsgRxSpeed
               (float_mul (float_div (float_of_int 13) (float_of_int 5))
                          (float_of_int 100)))) /\
  events (rx_task_body 100 junk_block) w_wrap !! 13%nat =
    Some (ObsLog TX_TASK_TAG
            (MsgTxSpeed
               (float_mul (float_div (float_of_int 12) (float_of_int 2))
                          (float_of_int 100)))).
Proof.
  apply (logged_speeds_survive_tick_wrap 100 w_wrap junk_block (hello ++ [NUL]) 5 2);
    [reflexivity | vm_compute; lia | reflexivity | reflexivity
    | vm_compute; split; [discriminate | reflexivity]
    | vm_compute; split; [discriminate | reflexivity]
    | vm_compute; reflexivity | vm_compute; reflexivity].
Defined.

(** X13 on a payload with a null byte in it: 12 of the 13 bytes are written. *)
Lemma rx_turn_writes_one_c_string_witness :
  written (events (rx_task_body 100 junk_block) w_hello) = [hello] /\
  Forall (fun v : list byte => until_nul v = v /\ (length v <= Z.to_nat RX_BUF_SIZE)%nat)
         (written (events (rx_task_body 100 junk_block) w_hello)).
Proof.
  split; [vm_compute; reflexivity|].
  apply (rx_turn_writes_one_c_string 100 w_hello junk_block). reflexivity.
Defined.
